(** * CNKI indicator crawler: page loop, row validation, persistence

    A shallow embedding of [main(单线程).py]: the text helpers the crawler
    relies on ([str.split], [str.strip], [str.join], [str.isdigit],
    [int]), the row validator and the page loop of
    [crawl_cnki_indicators], the SQLite sink [save_indicators_to_db] and
    the task driver [main].

    The browser and the database are external.  The site is an explicit
    description of what the browser shows ([site]); the database is a
    table of stored rows with the constraints of the [CREATE TABLE]
    statement.  Every [print] and every acquisition or release of a
    resource is recorded as an [event], so that what the program did can
    be read off the log. *)

From Stdlib Require Import ZArith NArith QArith Lia DecimalPos DecimalN.
From stdpp Require Import base option list numbers strings gmap.

Local Open Scope nat_scope.

(** ** Python strings *)

(** A Python [str] is a sequence of Unicode code points. *)
Definition char := N.
Definition str := list char.

Module Text.

(** [Py_UNICODE_ISSPACE]: the code points on which [str.split()] splits
    and which [str.strip()] removes. *)
Definition isspace (c : char) : bool :=
  ((9 <=? c) && (c <=? 13) || (28 <=? c) && (c <=? 32)
   || (c =? 133) || (c =? 160) || (c =? 5760)
   || (8192 <=? c) && (c <=? 8202)
   || (c =? 8232) || (c =? 8233) || (c =? 8239) || (c =? 8287)
   || (c =? 12288))%N.

Definition SPACE : char := 32%N.

(** [s.lstrip()], [s.rstrip()], [s.strip()] *)
Fixpoint lstrip (s : str) : str :=
  match s with
  | c :: s' => if isspace c then lstrip s' else s
  | [] => []
  end.

Definition rstrip (s : str) : str := rev (lstrip (rev s)).

Definition strip (s : str) : str := rstrip (lstrip s).

Definition cons_word (c : char) (ws : list str) : list str :=
  match ws with
  | w :: ws' => (c :: w) :: ws'
  | [] => [[c]]
  end.

(** [s.split()]: the maximal runs of characters that are not white
    space, in order. *)
Fixpoint split (s : str) : list str :=
  match s with
  | [] => []
  | c :: s' =>
      if isspace c then split s'
      else match s' with
           | [] => [[c]]
           | d :: _ => if isspace d then [c] :: split s'
                       else cons_word c (split s')
           end
  end.

(** [sep.join(ws)] *)
Fixpoint join (sep : str) (ws : list str) : str :=
  match ws with
  | [] => []
  | [w] => w
  | w :: ws' => w ++ sep ++ join sep ws'
  end.

(** [get_clean_text], on the text of the cell:
    [' '.join(text.split()).strip()] *)
Definition clean_text (text : str) : str :=
  strip (join [SPACE] (split text)).

(** A word: not empty, no white space in it. *)
Definition word (w : str) : Prop :=
  w ≠ [] ∧ Forall (λ c, isspace c = false) w.

(** A text that neither starts nor ends with white space. *)
Definition trimmed (s : str) : Prop :=
  lstrip s = s ∧ lstrip (rev s) = rev s.

(** The ASCII literal of the source as code points. *)
Definition lit (s : string) : str :=
  map (λ a, N.of_nat (Ascii.nat_of_ascii a)) (String.list_ascii_of_string s).

End Text.

(** ** Python values *)

(** The values a task parameter (a cell of [tasks.xlsx] read through
    pandas) can hold.  [PObj] stands for an object of any other type
    (a [numpy.int64], a timestamp): it is neither [int] nor [str], and
    SQLite cannot bind it. *)
Inductive pyval :=
  | PNone
  | PBool (b : bool)
  | PInt (z : Z)
  | PFloat (bits : N)
  | PStr (s : str)
  | PObj (id : N).

Inductive exn :=
  | TimeoutError      (* playwright: a bounded wait ran out *)
  | PlaywrightError   (* playwright: any other failure *)
  | ValueError
  | OverflowError
  | Sqlite3Error.     (* sqlite3.Error and its subclasses *)

Inductive result (A : Type) :=
  | Ok (a : A)
  | Raise (e : exn).
Arguments Ok {A} a.
Arguments Raise {A} e.

(** [Numeric_Type] of the Unicode character database, as far as
    [str.isdigit] and [int] look at it. *)
Inductive numeric_type :=
  | NtNone
  | NtDigit                (* isdigit, but no decimal value: ² ³ ¹ ① ... *)
  | NtDecimal (d : Z).     (* a decimal digit and its value *)

(** Basic Latin and Latin-1 Supplement. *)
Definition latin1_numeric_type (c : char) : numeric_type :=
  if ((48 <=? c) && (c <=? 57))%N then NtDecimal (Z.of_N c - 48)
  else if ((c =? 178) || (c =? 179) || (c =? 185))%N then NtDigit
  else NtNone.

Fixpoint uint_digits (d : Decimal.uint) : str :=
  match d with
  | Decimal.Nil => []
  | Decimal.D0 d => 48%N :: uint_digits d
  | Decimal.D1 d => 49%N :: uint_digits d
  | Decimal.D2 d => 50%N :: uint_digits d
  | Decimal.D3 d => 51%N :: uint_digits d
  | Decimal.D4 d => 52%N :: uint_digits d
  | Decimal.D5 d => 53%N :: uint_digits d
  | Decimal.D6 d => 54%N :: uint_digits d
  | Decimal.D7 d => 55%N :: uint_digits d
  | Decimal.D8 d => 56%N :: uint_digits d
  | Decimal.D9 d => 57%N :: uint_digits d
  end.

(** [str(z)] for an [int] *)
Definition str_int (z : Z) : str :=
  match Z.to_int z with
  | Decimal.Pos d => uint_digits d
  | Decimal.Neg d => 45%N :: uint_digits d
  end.

(** [str(b)] for a [bool] *)
Definition str_bool (b : bool) : str :=
  Text.lit (if b then "True" else "False").

Section Unicode.

(** The character database beyond Latin-1 is that of the interpreter. *)
Variable ucd : char → numeric_type.

Definition numeric (c : char) : numeric_type :=
  if (c <? 256)%N then latin1_numeric_type c else ucd c.

Definition isdigit_char (c : char) : bool :=
  match numeric c with NtNone => false | _ => true end.

(** [s.isdigit()] *)
Definition isdigit (s : str) : bool :=
  match s with
  | [] => false
  | _ => forallb isdigit_char s
  end.

(** [int(s)] for a text of digits only (no sign, blank or underscore in
    it): the decimal number, [ValueError] when a digit of it is not a
    decimal one.  (The interpreter's limit on the length of the text,
    [sys.int_max_str_digits], is left out.) *)
Fixpoint int_digits (acc : Z) (s : str) : result Z :=
  match s with
  | [] => Ok acc
  | c :: s' =>
      match numeric c with
      | NtDecimal d => int_digits (10 * acc + d)%Z s'
      | _ => Raise ValueError
      end
  end.

(** The third component of [meta]:
    [int(v) if isinstance(v, (int, str)) and str(v).isdigit() else None].
    [bool] is a subclass of [int]; every other type fails [isinstance]. *)
Definition search_mode_one (v : pyval) : result pyval :=
  match v with
  | PStr s =>
      if isdigit s
      then match int_digits 0 s with
           | Ok z => Ok (PInt z)
           | Raise e => Raise e
           end
      else Ok PNone
  | PInt z => if isdigit (str_int z) then Ok (PInt z) else Ok PNone
  | PBool b => if isdigit (str_bool b) then Ok (PInt (Z.b2z b)) else Ok PNone
  | PNone | PFloat _ | PObj _ => Ok PNone
  end.

End Unicode.

(** ** The site as the browser shows it *)

(** [row_handle.bounding_box()]: a dict of four floats, or [None]. *)
Record box := { x : Q; y : Q; width : Q; height : Q }.

(** What a click on the row's Excel icon leads to within the 5000 ms of
    [page.expect_download]. *)
Inductive download :=
  | Started (url : str) (cancel_ok : bool)
      (* the download event arrives; [download.cancel()] succeeds or raises *)
  | NotStarted.
      (* the click raises, or no download event in time *)

Record row_handle := {
  bounding_box : option box;
  td : list str;                 (* inner_text of each 'td', in order *)
  excel_icon : option download;  (* '.valueSearch_excel__3GKnk' *)
}.

Inductive next_click :=
  | NextSettles     (* the click is followed by network idle *)
  | NextTimeout.    (* click or wait_for_load_state runs out of time *)

(** One page of results. *)
Record page_view := {
  rows_appear : bool;   (* wait_for_selector('tbody > tr', 10000) succeeds *)
  candidate_rows : list row_handle;   (* query_selector_all('tbody > tr') *)
  next_button : option next_click;    (* '.btn-next:not([disabled])' *)
}.

Inductive sort_click :=
  | SortSettles
  | SortClickRaises
  | SortTimeout.   (* clicked, network idle not reached *)

Record site := {
  goto_settles : bool;     (* page.goto(final_url, 'networkidle') *)
  sort_button : option sort_click;    (* '.valueSearch_similar__2TkeM' *)
  page_at : bool → nat → page_view;
      (* the n-th page, in similarity order or in the default one *)
}.

(** What the browser's tab shows. *)
Record browser := { sorted : bool; shown : nat }.

Definition view (s : site) (b : browser) : page_view :=
  page_at s (sorted b) (shown b).

(** ** Rows and the log *)

Record IndicatorRow := {
  time : str;
  region : str;
  indicator : str;
  value : str;
  unit : str;
  source : str;
  page_no : str;
  download_url : str;
}.

Definition with_download_url (r : IndicatorRow) (u : str) : IndicatorRow :=
  {| time := time r; region := region r; indicator := indicator r;
     value := value r; unit := unit r; source := source r;
     page_no := page_no r; download_url := u |}.

(** One constructor per [print] of the source and per resource call. *)
Inductive event :=
  | ProcessingPage (page_num : nat)
  | SortClicking
  | SortNotFound
  | SortError
  | NoMorePages (page_num : nat)
  | DownloadFailed (indicator : str)
  | ValidatorFound (candidates validated : nat)
  | BrowserClosed
  | DbInitialised
  | DbConnected
  | DbCommitted
  | DbClosed
  | DbInserted (rowcount : nat)
  | DbWriteError
  | DbCleared
  | TasksFileNotFound
  | TaskStarting (index : nat)
  | TaskParsed (records : nat)
  | TaskError (index : nat) (e : exn)
  | AllTasksCompleted.

(** ** crawl_cnki_indicators *)

(** Lines 127-156: the three checks on a row handle, then the dict of
    the row.  [cells[k]] is within range once the second check passed. *)
Definition validate (row_handle : row_handle) : option IndicatorRow :=
  match bounding_box row_handle with
  | None => None
  | Some box =>
      if Qeq_bool (height box) 0 then None
      else
        let cells := td row_handle in
        if length cells <? 8 then None
        else
          let indicator_text := nth 3 cells [] in
          match Text.strip indicator_text with
          | [] => None
          | stripped =>
              Some {| time := Text.clean_text (nth 1 cells []);
                      region := Text.clean_text (nth 2 cells []);
                      indicator := stripped;
                      value := Text.clean_text (nth 4 cells []);
                      unit := Text.clean_text (nth 5 cells []);
                      source := Text.clean_text (nth 6 cells []);
                      page_no := Text.clean_text (nth 7 cells []);
                      download_url := [] |}
          end
  end.

(** Lines 159-169: the download link of a validated row. *)
Definition intercept (get_download_links : bool) (row_handle : row_handle)
    (row_data : IndicatorRow) : IndicatorRow * list event :=
  if get_download_links then
    match excel_icon row_handle with
    | None => (row_data, [])
    | Some (Started url true) => (with_download_url row_data url, [])
    | Some (Started url false) =>
        (with_download_url row_data url,
         [DownloadFailed (indicator row_data)])
    | Some NotStarted => (row_data, [DownloadFailed (indicator row_data)])
    end
  else (row_data, []).

(** Lines 126-171: the loop over the candidate rows of one page. *)
Fixpoint scrape_rows (get_download_links : bool)
    (candidate_rows : list row_handle)
    (validated_rows_for_page : list IndicatorRow) (log : list event)
    : list IndicatorRow * list event :=
  match candidate_rows with
  | [] => (validated_rows_for_page, log)
  | row_handle :: rest =>
      match validate row_handle with
      | None => scrape_rows get_download_links rest validated_rows_for_page log
      | Some row_data =>
          let '(row_data, ev) :=
            intercept get_download_links row_handle row_data in
          scrape_rows get_download_links rest
            (validated_rows_for_page ++ [row_data]) (log ++ ev)
      end
  end.

(** ['相关度'] *)
Definition SIMILARITY : str := [30456%N; 20851%N; 24230%N].

Definition requests_similarity (sort_by : pyval) : bool :=
  match sort_by with
  | PStr s => bool_decide (s = SIMILARITY)
  | _ => false
  end.

Inductive navigation :=
  | Shows (b : browser)
  | Break
  | Fatal (e : exn).

(** Lines 98-119: the first page is loaded (and sorted when asked for),
    every later one is reached through the next-page button. *)
Definition navigate (s : site) (sort_by : pyval) (page_num : nat)
    (b : browser) : navigation * list event :=
  if page_num =? 0 then
    if goto_settles s then
      if requests_similarity sort_by then
        match sort_button s with
        | Some SortSettles =>
            (Shows {| sorted := true; shown := 0 |}, [SortClicking])
        | Some SortTimeout =>
            (Shows {| sorted := true; shown := 0 |}, [SortClicking; SortError])
        | Some SortClickRaises =>
            (Shows {| sorted := false; shown := 0 |}, [SortClicking; SortError])
        | None => (Shows {| sorted := false; shown := 0 |}, [SortNotFound])
        end
      else (Shows {| sorted := false; shown := 0 |}, [])
    else (Fatal TimeoutError, [])
  else
    match next_button (view s b) with
    | None => (Break, [NoMorePages page_num])
    | Some NextSettles =>
        (Shows {| sorted := sorted b; shown := S (shown b) |}, [])
    | Some NextTimeout => (Fatal TimeoutError, [])
    end.

(** Lines 95-176: the loop over [range(maxpages)]. *)
Fixpoint page_loop (s : site) (get_download_links : bool) (sort_by : pyval)
    (page_nums : list nat) (b : browser)
    (all_rows : list IndicatorRow) (log : list event)
    : result (list IndicatorRow) * list event :=
  match page_nums with
  | [] => (Ok all_rows, log)
  | page_num :: rest =>
      let log := log ++ [ProcessingPage page_num] in
      match navigate s sort_by page_num b with
      | (Break, ev) => (Ok all_rows, log ++ ev)
      | (Fatal e, ev) => (Raise e, log ++ ev)
      | (Shows b, ev) =>
          let log := log ++ ev in
          if rows_appear (view s b) then
            let candidate_rows := candidate_rows (view s b) in
            let '(validated_rows_for_page, log) :=
              scrape_rows get_download_links candidate_rows [] log in
            page_loop s get_download_links sort_by rest b
              (all_rows ++ validated_rows_for_page)
              (log ++ [ValidatorFound (length candidate_rows)
                         (length validated_rows_for_page)])
          else (Raise TimeoutError, log)
      end
  end.

(** [range(n)] *)
Definition range (n : Z) : list nat := seq 0 (Z.to_nat n).

(** The tab of a new browser shows no page; [range] starts at 0, so the
    first thing the loop does is [goto]. *)
Definition new_page : browser := {| sorted := false; shown := 0 |}.

(** The whole function: the rows it returns or the exception that leaves
    it, and its log.  [finally] closes the browser on both ways out.
    [final_url] is given as the site it leads to. *)
Definition crawl_cnki_indicators (final_url : site) (maxpages : Z)
    (get_download_links : bool) (sort_by : pyval)
    : result (list IndicatorRow) * list event :=
  let '(outcome, log) :=
    page_loop final_url get_download_links sort_by (range maxpages)
      new_page [] [] in
  (outcome, log ++ [BrowserClosed]).

(** ** The table cnki_indicators *)

Inductive sqlval :=
  | SNull
  | SInteger (z : Z)
  | SReal (bits : N)
  | SText (s : str).

Global Instance sqlval_eq_dec : EqDecision sqlval.
Proof. solve_decision. Defined.

(** A stored row: the fifteen columns of the [INSERT], in its order
    (zcode, indicate_name, search_mode_one, area, begin_year, end_year,
    data_type, time, region, indicator, value, unit, source, page_no,
    download_url).  [id] and [crawled_at] are filled by SQLite and no
    one reads them.  A value is kept as it was bound: the six columns of
    the key are TEXT and receive a [str]; the conversions of column
    affinity on the other columns are left out. *)
Definition column (i : nat) (r : list sqlval) : sqlval := nth i r SNull.

(** [time TEXT NOT NULL, region TEXT NOT NULL, indicator TEXT NOT NULL] *)
Definition NOT_NULL : list nat := [7; 8; 9].

(** [UNIQUE(indicator, region, time, source, page_no, download_url)] *)
Definition UNIQUE : list nat := [9; 8; 7; 12; 13; 14].

Definition is_null (v : sqlval) : bool :=
  match v with SNull => true | _ => false end.

Definition unique_key (r : list sqlval) : list sqlval :=
  map (λ i, column i r) UNIQUE.

(** Two rows collide on the constraint when their keys are equal and
    hold no NULL (SQLite takes every NULL as different from every
    other). *)
Definition collide (r r' : list sqlval) : bool :=
  bool_decide (unique_key r = unique_key r')
  && forallb (λ v, negb (is_null v)) (unique_key r).

(** One [INSERT OR IGNORE]: the new table and [sqlite3_changes()]. *)
Definition insert_or_ignore (t : list (list sqlval)) (r : list sqlval)
    : list (list sqlval) * nat :=
  if existsb (λ i, is_null (column i r)) NOT_NULL then (t, 0)
  else if existsb (collide r) t then (t, 0)
  else (t ++ [r], 1).

(** Binding a Python value to a [?]. *)
Definition bind (v : pyval) : result sqlval :=
  match v with
  | PNone => Ok SNull
  | PBool b => Ok (SInteger (Z.b2z b))
  | PInt z =>
      if ((- 2 ^ 63 <=? z) && (z <? 2 ^ 63))%Z then Ok (SInteger z)
      else Raise OverflowError
  | PFloat bits => Ok (SReal bits)
  | PStr s => Ok (SText s)
  | PObj _ => Raise Sqlite3Error
  end.

Fixpoint bind_all (record : list pyval) : result (list sqlval) :=
  match record with
  | [] => Ok []
  | v :: rest =>
      match bind v with
      | Raise e => Raise e
      | Ok b =>
          match bind_all rest with
          | Raise e => Raise e
          | Ok bs => Ok (b :: bs)
          end
      end
  end.

Fixpoint insert_all (t : list (list sqlval)) (rowcount : nat)
    (records : list (list pyval)) : result (list (list sqlval) * nat) :=
  match records with
  | [] => Ok (t, rowcount)
  | record :: rest =>
      match bind_all record with
      | Raise e => Raise e
      | Ok r =>
          let '(t, changes) := insert_or_ignore t r in
          insert_all t (rowcount + changes) rest
      end
  end.

(** [cursor.executemany('INSERT OR IGNORE ...', records)] on a database
    whose table may not have been created: the table it leaves in the
    open transaction and [cursor.rowcount]. *)
Definition executemany (table : option (list (list sqlval)))
    (records : list (list pyval)) : result (list (list sqlval) * nat) :=
  match table with
  | None => Raise Sqlite3Error
  | Some t => insert_all t 0 records
  end.

(** ** The program's state: the database file and what was printed *)

Record state := {
  table : option (list (list sqlval));
  log : list event;
}.

Definition emit (st : state) (ev : list event) : state :=
  {| table := table st; log := log st ++ ev |}.

Definition commit (st : state) (t : list (list sqlval)) : state :=
  {| table := Some t; log := log st |}.

(** [params.get(k)] *)
Definition get (params : gmap str pyval) (k : string) : pyval :=
  default PNone (params !! Text.lit k).

Definition setup_indicator_database (st : state) : state :=
  let st := emit st [DbConnected] in
  let st := match table st with
            | None => commit st []
            | Some _ => st
            end in
  emit st [DbCommitted; DbClosed; DbInitialised].

Definition clear_indicator_database (st : state) : state :=
  let st := emit st [DbConnected] in
  match table st with
  | Some _ => emit (commit st []) [DbCommitted; DbCleared; DbClosed]
  | None => emit st [DbWriteError; DbClosed]
  end.

Section Program.

Variable ucd : char → numeric_type.

(** The tuple appended to [records] for a row. *)
Definition record_of (meta : list pyval) (r : IndicatorRow) : list pyval :=
  meta ++ [PStr (time r); PStr (region r); PStr (indicator r);
           PStr (value r); PStr (unit r); PStr (source r);
           PStr (page_no r); PStr (download_url r)].

(** Lines 50-58.  Only the third component can raise. *)
Definition meta_of (params : gmap str pyval) : result (list pyval) :=
  match search_mode_one ucd (get params "searchModeOne") with
  | Raise e => Raise e
  | Ok mode =>
      Ok [get params "zcode"; get params "indicateName"; mode;
          get params "area"; get params "beginYear"; get params "endYear";
          get params "dataType"]
  end.

(** What the function returns ([None] of Python is [None] here) or
    raises, and the state it leaves.  A transaction that was not
    committed is gone when the connection closes. *)
Definition save_indicators_to_db (rows : list IndicatorRow)
    (params : gmap str pyval) (st : state) : result (option nat) * state :=
  match rows with
  | [] => (Ok (Some 0), st)
  | _ =>
      let st := emit st [DbConnected] in
      match meta_of params with
      | Raise e => (Raise e, st)
      | Ok meta =>
          let records := map (record_of meta) rows in
          match executemany (table st) records with
          | Ok (t, rowcount) =>
              (Ok (Some rowcount),
               emit (commit st t) [DbCommitted; DbInserted rowcount; DbClosed])
          | Raise Sqlite3Error => (Ok None, emit st [DbWriteError; DbClosed])
          | Raise e => (Raise e, emit st [DbClosed])
          end
      end
  end.

(** ** main *)

Definition maxpages : Z := 5.
Definition GET_DOWNLOAD_LINKS : bool := false.
Definition CLEAR_DATABASE_BEFORE_CRAWL : bool := false.

(** [v is not None and v != ''] *)
Definition kept (v : pyval) : bool :=
  match v with
  | PNone | PStr [] => false
  | _ => true
  end.

Definition cleaned_params (params : gmap str pyval) : gmap str pyval :=
  filter (λ kv, kept kv.2 = true) params.

(** The remote service: the site behind the URL that the cleaned
    parameters encode. *)
Variable web : gmap str pyval → site.

(** The body of the loop over the tasks, lines 222-241. *)
Definition run_task (index : nat) (params : gmap str pyval) (st : state)
    : state :=
  let st := emit st [TaskStarting index] in
  let final_url := web (cleaned_params params) in
  let sort_preference := get params "sort" in
  let '(outcome, crawl_log) :=
    crawl_cnki_indicators final_url maxpages GET_DOWNLOAD_LINKS
      sort_preference in
  let st := emit st crawl_log in
  match outcome with
  | Raise e => emit st [TaskError index e]
  | Ok rows =>
      let st := emit st [TaskParsed (length rows)] in
      match rows with
      | [] => st
      | _ =>
          match save_indicators_to_db rows params st with
          | (Raise e, st) => emit st [TaskError index e]
          | (Ok _, st) => st
          end
      end
  end.

Fixpoint run_tasks (index : nat) (tasks : list (gmap str pyval))
    (st : state) : state :=
  match tasks with
  | [] => st
  | params :: rest => run_tasks (S index) rest (run_task index params st)
  end.

(** [tasks] is [None] when [tasks.xlsx] does not exist. *)
Definition main (tasks : option (list (gmap str pyval))) (st : state)
    : state :=
  let st := setup_indicator_database st in
  let st := if CLEAR_DATABASE_BEFORE_CRAWL
            then clear_indicator_database st else st in
  match tasks with
  | None => emit st [TasksFileNotFound]
  | Some tasks => emit (run_tasks 0 tasks st) [AllTasksCompleted]
  end.

End Program.

(** * Notions of the statements *)

(** The row that the loop appends for a handle, if any, and what it
    prints for it. *)
Definition scraped (get_download_links : bool) (h : row_handle)
    : option IndicatorRow :=
  match validate h with
  | Some row_data => Some (intercept get_download_links h row_data).1
  | None => None
  end.

Definition scrape_events (get_download_links : bool) (h : row_handle)
    : list event :=
  match validate h with
  | Some row_data => (intercept get_download_links h row_data).2
  | None => []
  end.

(** The exclusion rule in the words of the specification: no bounding
    box or zero height, or fewer than 8 cells, or a 4th cell of white
    space only. *)
Definition excluded (h : row_handle) : bool :=
  match bounding_box h with
  | None => true
  | Some b => Qeq_bool (height b) 0
  end
  || (length (td h) <? 8)
  || forallb Text.isspace (nth 3 (td h) []).

(** A handle that some page of the site shows. *)
Definition on_site (s : site) (h : row_handle) : Prop :=
  ∃ srt n, h ∈ candidate_rows (page_at s srt n).

Definition is_page_start (e : event) : bool :=
  match e with ProcessingPage _ => true | _ => false end.

Definition is_page_done (e : event) : bool :=
  match e with ValidatorFound _ _ => true | _ => false end.

(** The passes through the body of the page loop, and the pages whose
    rows were collected and validated. *)
Definition iterations (log : list event) : nat :=
  length (List.filter is_page_start log).

Definition pages_scraped (log : list event) : nat :=
  length (List.filter is_page_done log).

(** The rows that pages [i] to [i + n - 1] of the site give (the first
    page is page 0 here), in crawl order. *)
Definition rows_of_pages (s : site) (g : bool) (srt : bool) (i n : nat)
    : list IndicatorRow :=
  concat (map (λ j, omap (scraped g) (candidate_rows (page_at s srt j)))
            (seq i n)).


(** Two white-space characters in a row somewhere in the text. *)
Fixpoint repeated_whitespace (s : str) : bool :=
  match s with
  | c :: (d :: _) as s' =>
      Text.isspace c && Text.isspace d || repeated_whitespace s'
  | _ => false
  end.

(** What [get_clean_text] guarantees: words joined by single spaces. *)
Definition normalized (s : str) : Prop :=
  ∃ ws, Forall Text.word ws ∧ s = Text.join [Text.SPACE] ws.

(** The composite key of a row, as the table stores it. *)
Definition key_of_row (r : IndicatorRow) : list sqlval :=
  map SText [indicator r; region r; time r; source r; page_no r;
             download_url r].

(** How many stored rows carry the key [k]. *)
Definition stored_with (k : list sqlval) (t : list (list sqlval)) : nat :=
  length (List.filter (λ r, bool_decide (unique_key r = k)) t).

(** The constraint of the table: a key without NULL is stored at most
    once. *)
Definition at_most_once (t : list (list sqlval)) : Prop :=
  ∀ k, forallb (λ v, negb (is_null v)) k = true → stored_with k t ≤ 1.

(** The eight columns that a row supplies. *)
Definition row_columns (r : IndicatorRow) : list sqlval :=
  map SText [time r; region r; indicator r; value r; unit r; source r;
             page_no r; download_url r].

(** The value of the searchModeOne parameter is digit-like: an [int] or
    a [str] whose [str()] passes [isdigit]. *)
Definition digit_like (ucd : char → numeric_type) (v : pyval) : bool :=
  match v with
  | PStr s => isdigit ucd s
  | PInt z => isdigit ucd (str_int z)
  | PBool b => isdigit ucd (str_bool b)
  | PNone | PFloat _ | PObj _ => false
  end.


(** The characters of a text that are not white space, in order. *)
Definition visible (s : str) : str :=
  List.filter (λ c, negb (Text.isspace c)) s.



(** What every field of a row that the crawl returns satisfies. *)
Definition well_formed (r : IndicatorRow) : Prop :=
  indicator r ≠ [] ∧ Text.trimmed (indicator r)
  ∧ normalized (time r) ∧ normalized (region r) ∧ normalized (value r)
  ∧ normalized (unit r) ∧ normalized (source r) ∧ normalized (page_no r).

(** * Inputs of the examples *)

(** An interpreter whose character database has no digit beyond
    Latin-1; the examples run on it. *)
Definition latin1_only : char → numeric_type := λ _, NtNone.

(** A well-formed data row, and a site whose first page shows it and
    whose second page never settles. *)
Definition gdp_row : row_handle :=
  {| bounding_box := Some {| x := 0; y := 0; width := 800; height := 32 |};
     td := map Text.lit ["1"; "2020"; "Beijing"; "GDP"; "36102.6";
                         "100m yuan"; "Yearbook 2021"; "35"];
     excel_icon := None |}.


(** A row whose indicator cell holds two lines with an empty line
    between them (["GDP\n\nper capita"], what [inner_text] gives for
    two line breaks in the cell). *)
Definition two_line_cell : str :=
  Text.lit "GDP" ++ [10%N; 10%N] ++ Text.lit "per capita".

Definition spaced_row : row_handle :=
  {| bounding_box := Some {| x := 0; y := 0; width := 800; height := 32 |};
     td := [Text.lit "1"; Text.lit "2020"; Text.lit "Beijing"; two_line_cell;
            Text.lit "164889"; Text.lit "yuan"; Text.lit "Yearbook 2021";
            Text.lit "35"];
     excel_icon := None |}.

Definition gdp_2020 : IndicatorRow :=
  {| time := Text.lit "2020"; region := Text.lit "Beijing";
     indicator := Text.lit "GDP"; value := Text.lit "36102.6";
     unit := Text.lit "100m yuan"; source := Text.lit "Yearbook 2021";
     page_no := Text.lit "35"; download_url := [] |}.

Definition gdp_2021 : IndicatorRow :=
  {| time := Text.lit "2021"; region := Text.lit "Beijing";
     indicator := Text.lit "GDP"; value := Text.lit "40269.6";
     unit := Text.lit "100m yuan"; source := Text.lit "Yearbook 2022";
     page_no := Text.lit "36"; download_url := [] |}.

(** A database in which the table exists and is empty. *)
Definition fresh : state := {| table := Some []; log := [] |}.

(** A task whose searchModeOne cell holds [²] (U+00B2). *)
Definition superscript_task : gmap str pyval :=
  <[Text.lit "indicateName" := PStr (Text.lit "GDP")]>
    {[Text.lit "searchModeOne" := PStr [178%N]]}.

(** A task whose searchModeOne cell holds ["1"]. *)
Definition plain_task : gmap str pyval :=
  <[Text.lit "indicateName" := PStr (Text.lit "GDP")]>
    {[Text.lit "searchModeOne" := PStr (Text.lit "1")]}.

(** A site of one page with one data row. *)
Definition one_page_site : site :=
  {| goto_settles := true;
     sort_button := None;
     page_at := λ _ _, {| rows_appear := true;
                          candidate_rows := [gdp_row];
                          next_button := None |} |}.

(** Scenario A: ten candidate rows, two of height zero, one of five
    cells, one with a blank indicator cell. *)
Definition flat_row : row_handle :=
  {| bounding_box := Some {| x := 0; y := 0; width := 800; height := 0 |};
     td := td gdp_row; excel_icon := None |}.

Definition header_row : row_handle :=
  {| bounding_box := bounding_box gdp_row;
     td := map Text.lit ["No."; "Time"; "Region"; "Indicator"; "Value"];
     excel_icon := None |}.

Definition spacer_row : row_handle :=
  {| bounding_box := bounding_box gdp_row;
     td := map Text.lit ["1"; "2020"; "Beijing"; "  "; "1"; "2"; "3"; "4"];
     excel_icon := None |}.

Definition scenario_A : list row_handle :=
  [gdp_row; flat_row; gdp_row; header_row; gdp_row; spacer_row; gdp_row;
   flat_row; gdp_row; gdp_row].


(** A site whose only row offers a download that is captured. *)
Definition download_site : site :=
  {| goto_settles := true;
     sort_button := None;
     page_at := λ _ _,
       {| rows_appear := true;
          candidate_rows :=
            [ {| bounding_box := bounding_box gdp_row; td := td gdp_row;
                 excel_icon := Some (Started (Text.lit "blob:1") true) |} ];
          next_button := None |} |}.

(** Scenario B: a budget of 5 pages, the next-page control disabled on
    page 3. *)
Definition three_page_site : site :=
  {| goto_settles := true;
     sort_button := None;
     page_at := λ _ n,
       {| rows_appear := true;
          candidate_rows := [gdp_row];
          next_button := if n <? 2 then Some NextSettles else None |} |}.

(** The metadata of [plain_task], as computed and as bound. *)
Definition plain_meta : list pyval :=
  [PNone; PStr (Text.lit "GDP"); PInt 1; PNone; PNone; PNone; PNone].

Definition plain_bound : list sqlval :=
  [SNull; SText (Text.lit "GDP"); SInteger 1; SNull; SNull; SNull; SNull].

(** A task whose zcode cell came out of pandas as an object that SQLite
    has no type for. *)
Definition object_task : gmap str pyval :=
  <[Text.lit "zcode" := PObj 0]> plain_task.

Definition object_meta : list pyval :=
  [PObj 0; PStr (Text.lit "GDP"); PInt 1; PNone; PNone; PNone; PNone].

(** A row whose download starts and is cancelled. *)
Definition captured_row : row_handle :=
  {| bounding_box := bounding_box gdp_row; td := td gdp_row;
     excel_icon := Some (Started (Text.lit "blob:1") true) |}.

(** * Properties *)

(** ** Facts on [split], [join] and [strip] *)

Module TextFacts.
Import Text.

Lemma isspace_SPACE : isspace SPACE = true.
Proof. reflexivity. Qed.

Lemma lstrip_word_app (w rest : str) :
  word w → lstrip (w ++ rest) = w ++ rest.
Proof.
  intros [Hne Hall]. destruct w as [|c w]; [done|].
  inversion Hall as [|? ? Hc _]; subst. simpl. by rewrite Hc.
Qed.

Lemma lstrip_all_space (s : str) :
  lstrip s = [] ↔ forallb isspace s = true.
Proof.
  induction s as [|c s IH]; simpl; [done|].
  destruct (isspace c); simpl; [exact IH|]. split; discriminate.
Qed.

Lemma lstrip_head (s : str) (c : char) (t : str) :
  lstrip s = c :: t → isspace c = false.
Proof.
  induction s as [|d s IH]; simpl; [done|].
  destruct (isspace d) eqn:Ed; [exact IH|].
  intros [= <- _]. exact Ed.
Qed.

Lemma forallb_rev {A} (f : A → bool) (l : list A) :
  forallb f (rev l) = forallb f l.
Proof.
  induction l as [|x l IH]; simpl; [done|].
  rewrite forallb_app, IH. simpl. rewrite andb_true_r. apply andb_comm.
Qed.

(** [not text.strip()] holds exactly for the texts made of white space
    only (the empty text among them). *)
Lemma strip_all_space (s : str) :
  strip s = [] ↔ forallb isspace s = true.
Proof.
  unfold strip, rstrip. split.
  - intros H. apply lstrip_all_space.
    destruct (lstrip s) as [|c t] eqn:E; [done|].
    apply lstrip_head in E.
    apply (f_equal (@rev char)) in H. rewrite rev_involutive in H.
    apply lstrip_all_space in H. rewrite forallb_rev in H.
    simpl in H. by rewrite E in H.
  - intros H. apply lstrip_all_space in H. by rewrite H.
Qed.

(** *** The equations of [split] *)

Lemma split_space (c : char) (s : str) :
  isspace c = true → split (c :: s) = split s.
Proof. intros H. simpl. by rewrite H. Qed.

Lemma split_last (c : char) : isspace c = false → split [c] = [[c]].
Proof. intros H. simpl. by rewrite H. Qed.

Lemma split_sep (c d : char) (s : str) :
  isspace c = false → isspace d = true →
  split (c :: d :: s) = [c] :: split s.
Proof.
  intros Hc Hd. rewrite <- (split_space d s Hd).
  cbn [split]. by rewrite Hc, Hd.
Qed.

Lemma split_cont (c d : char) (s : str) :
  isspace c = false → isspace d = false →
  split (c :: d :: s) = cons_word c (split (d :: s)).
Proof. intros Hc Hd. cbn [split]. by rewrite Hc, Hd. Qed.

Lemma word_cons_inv (c : char) (w : str) :
  word (c :: w) → isspace c = false ∧ (w = [] ∨ word w).
Proof.
  intros [_ H]. inversion H; subst. split; [done|].
  destruct w; [by left|right]. by split.
Qed.

Lemma word_rev (w : str) : word w → word (rev w).
Proof.
  intros [Hne H]. split.
  - intros E. apply Hne. apply (f_equal (@rev char)) in E.
    by rewrite rev_involutive in E.
  - by apply List.Forall_rev.
Qed.

(** Every element of [s.split()] is a word. *)
Lemma split_words (s : str) : Forall word (split s).
Proof.
  induction s as [|c s IH]; [constructor|].
  destruct (isspace c) eqn:Hc; [by rewrite split_space|].
  destruct s as [|d s]; [rewrite split_last by done|].
  { repeat constructor; [done|done]. }
  destruct (isspace d) eqn:Hd.
  - rewrite split_sep by done. rewrite split_space in IH by done.
    constructor; [|done]. repeat constructor; done.
  - rewrite split_cont by done.
    destruct (split (d :: s)) as [|w ws]; simpl.
    + repeat constructor; done.
    + inversion IH as [|? ? [Hw1 Hw2] Hws]; subst.
      constructor; [|done]. split; [done|]. by constructor.
Qed.

(** A word followed by a space: [split] cuts there. *)
Lemma split_word_space (w rest : str) :
  word w → split (w ++ SPACE :: rest) = w :: split rest.
Proof.
  induction w as [|c w IH]; intros Hw; [by destruct Hw|].
  apply word_cons_inv in Hw as [Hc [->|Hw]].
  - simpl app. by rewrite split_sep.
  - destruct w as [|d w]; [by destruct Hw|].
    pose proof Hw as [Hd _]%word_cons_inv.
    change ((c :: d :: w) ++ SPACE :: rest)
      with (c :: d :: (w ++ SPACE :: rest)).
    rewrite split_cont by done.
    change (d :: w ++ SPACE :: rest) with ((d :: w) ++ SPACE :: rest).
    by rewrite IH.
Qed.

Lemma split_word (w : str) : word w → split w = [w].
Proof.
  induction w as [|c w IH]; intros Hw; [by destruct Hw|].
  apply word_cons_inv in Hw as [Hc [->|Hw]]; [by apply split_last|].
  destruct w as [|d w]; [by destruct Hw|].
  pose proof Hw as [Hd _]%word_cons_inv.
  rewrite split_cont by done. by rewrite IH.
Qed.

(** [split] undoes [' '.join] on words. *)
Lemma split_join (ws : list str) :
  Forall word ws → split (join [SPACE] ws) = ws.
Proof.
  induction ws as [|w ws IH]; intros H; [done|].
  inversion H as [|? ? Hw Hws]; subst.
  destruct ws as [|w' ws]; [by apply split_word|].
  change (join [SPACE] (w :: w' :: ws))
    with (w ++ SPACE :: join [SPACE] (w' :: ws)).
  rewrite split_word_space by done. by rewrite IH.
Qed.

Lemma strip_trimmed (s : str) : trimmed s → strip s = s.
Proof.
  intros [Hl Hr]. unfold strip, rstrip.
  by rewrite Hl, Hr, rev_involutive.
Qed.

Lemma lstrip_idemp (s : str) : lstrip (lstrip s) = lstrip s.
Proof.
  induction s as [|c s IH]; [done|]. simpl.
  destruct (isspace c) eqn:Hc; [done|]. simpl. by rewrite Hc.
Qed.

Lemma lstrip_app_keep (a b : str) :
  a ≠ [] → lstrip a = a → lstrip (a ++ b) = a ++ b.
Proof.
  destruct a as [|c a]; [done|]. intros _ H.
  pose proof (lstrip_head _ _ _ H) as Hc. simpl. by rewrite Hc.
Qed.

Lemma word_trimmed (w : str) : word w → trimmed w.
Proof.
  intros Hw. split.
  - rewrite <- (app_nil_r w) at 1 2. by apply lstrip_word_app.
  - rewrite <- (app_nil_r (rev w)) at 1 2. by apply lstrip_word_app, word_rev.
Qed.

Lemma join_nonempty (sep : str) (w : str) (ws : list str) :
  w ≠ [] → join sep (w :: ws) ≠ [].
Proof. intros Hw. destruct ws; simpl; [done|]. by destruct w. Qed.

Lemma join_words_trimmed (ws : list str) :
  Forall word ws → trimmed (join [SPACE] ws).
Proof.
  induction ws as [|w ws IH]; intros H; [done|].
  inversion H as [|? ? Hw Hws]; subst.
  destruct ws as [|w' ws]; [by apply word_trimmed|].
  specialize (IH Hws). destruct IH as [_ IHr].
  change (join [SPACE] (w :: w' :: ws))
    with (w ++ [SPACE] ++ join [SPACE] (w' :: ws)).
  split.
  - by apply lstrip_word_app.
  - rewrite !rev_app_distr. rewrite <- app_assoc.
    apply lstrip_app_keep; [|done].
    intros E. apply (f_equal (@rev char)) in E.
    rewrite rev_involutive in E. revert E. apply join_nonempty.
    inversion Hws as [|? ? [Hne _] _]; by subst.
Qed.

(** With [strip] undone by [split] and [join], the text that
    [get_clean_text] returns is the joined words. *)
Lemma clean_text_join (text : str) :
  clean_text text = join [SPACE] (split text).
Proof. apply strip_trimmed, join_words_trimmed, split_words. Qed.

End TextFacts.

(** ** Text normalization *)

(** C7: the normalization of [get_clean_text] (white-space runs
    collapsed to one space, then trimmed) is idempotent: cleaning a
    cleaned text gives it back. *)
Theorem clean_text_idempotent (s : str) :
  Text.clean_text (Text.clean_text s) = Text.clean_text s.
Proof.
  rewrite (TextFacts.clean_text_join s).
  rewrite (TextFacts.clean_text_join (Text.join _ _)).
  f_equal. apply TextFacts.split_join, TextFacts.split_words.
Qed.

(** ** The row validator *)

Lemma scrape_rows_spec g rows acc log :
  scrape_rows g rows acc log
  = (acc ++ omap (scraped g) rows,
     log ++ concat (map (scrape_events g) rows)).
Proof.
  revert acc log. induction rows as [|h rows IH]; intros acc log.
  - simpl. by rewrite !app_nil_r.
  - cbn [scrape_rows omap list_omap map concat].
    unfold scraped, scrape_events.
    destruct (validate h) as [rd|]; [|by rewrite IH].
    destruct (intercept g h rd) as [rd' ev]. rewrite IH. simpl.
    by rewrite <- !app_assoc.
Qed.

Lemma validate_None (h : row_handle) :
  validate h = None ↔ excluded h = true.
Proof.
  unfold validate, excluded.
  destruct (bounding_box h) as [b|]; [|done].
  destruct (Qeq_bool (height b) 0); [done|].
  destruct (length (td h) <? 8); [done|]. simpl.
  rewrite <- TextFacts.strip_all_space.
  by destruct (Text.strip (nth 3 (td h) [])).
Qed.

Lemma scraped_None g (h : row_handle) :
  scraped g h = None ↔ excluded h = true.
Proof.
  rewrite <- validate_None. unfold scraped.
  by destruct (validate h).
Qed.

Lemma omap_scraped_filter g (rows : list row_handle) :
  Forall2 (λ h r, scraped g h = Some r)
    (List.filter (λ h, negb (excluded h)) rows) (omap (scraped g) rows).
Proof.
  induction rows as [|h rows IH]; [constructor|].
  cbn [List.filter omap list_omap].
  destruct (scraped g h) as [r|] eqn:E.
  - destruct (excluded h) eqn:X.
    + apply (proj2 (scraped_None g h)) in X. congruence.
    + simpl. by constructor.
  - apply (proj1 (scraped_None g h)) in E. by rewrite E.
Qed.

Lemma filter_split_length {A} (f : A → bool) (l : list A) :
  length (List.filter f l) + length (List.filter (λ a, negb (f a)) l)
  = length l.
Proof.
  induction l as [|a l IH]; [done|]. simpl.
  destruct (f a); simpl; lia.
Qed.

(** C1: of the candidate rows of a page the validator drops exactly the
    excluded ones (no box or zero height, fewer than 8 cells, 4th cell
    of white space only) and builds one row, in order, for each of the
    others; so 10 candidates of which 4 are excluded give 6 rows. *)
Theorem row_validator_excludes_exactly
    (get_download_links : bool) (rows : list row_handle)
    (log : list event) :
  let validated := (scrape_rows get_download_links rows [] log).1 in
  (∀ h, validate h = None ↔ excluded h = true)
  ∧ Forall2 (λ h r, scraped get_download_links h = Some r)
      (List.filter (λ h, negb (excluded h)) rows) validated
  ∧ (length rows = 10 → length (List.filter excluded rows) = 4 →
     length validated = 6).
Proof.
  rewrite scrape_rows_spec. cbn [fst app].
  split; [apply validate_None|].
  pose proof (omap_scraped_filter get_download_links rows) as HF.
  split; [done|]. intros H10 H4.
  apply Forall2_length in HF. rewrite <- HF.
  pose proof (filter_split_length excluded rows). lia.
Qed.

(** ** The download interceptor *)

Lemma validate_download_url (h : row_handle) (row_data : IndicatorRow) :
  validate h = Some row_data → download_url row_data = [].
Proof.
  unfold validate. intros H.
  repeat match type of H with
         | match ?x with _ => _ end = _ => destruct x; try discriminate
         | (if ?x then _ else _) = _ => destruct x; try discriminate
         end.
  by injection H as <-.
Qed.



(** ** The page loop *)

Lemma page_loop_cons s g sort_by page_num rest b all_rows log :
  page_loop s g sort_by (page_num :: rest) b all_rows log
  = match navigate s sort_by page_num b with
    | (Break, ev) => (Ok all_rows, (log ++ [ProcessingPage page_num]) ++ ev)
    | (Fatal e, ev) => (Raise e, (log ++ [ProcessingPage page_num]) ++ ev)
    | (Shows b', ev) =>
        if rows_appear (view s b') then
          let rows := candidate_rows (view s b') in
          page_loop s g sort_by rest b'
            (all_rows ++ omap (scraped g) rows)
            ((((log ++ [ProcessingPage page_num]) ++ ev)
              ++ concat (map (scrape_events g) rows))
             ++ [ValidatorFound (length rows)
                   (length (omap (scraped g) rows))])
        else (Raise TimeoutError, (log ++ [ProcessingPage page_num]) ++ ev)
    end.
Proof.
  cbn [page_loop].
  destruct (navigate s sort_by page_num b) as [[b'| |e] ev]; try done.
  destruct (rows_appear (view s b')); [|done].
  by rewrite scrape_rows_spec.
Qed.

Lemma page_loop_rows s g sort_by page_nums b all_rows log rows :
  Forall (λ r, ∃ h, on_site s h ∧ scraped g h = Some r) all_rows →
  (page_loop s g sort_by page_nums b all_rows log).1 = Ok rows →
  Forall (λ r, ∃ h, on_site s h ∧ scraped g h = Some r) rows.
Proof.
  revert b all_rows log.
  induction page_nums as [|n rest IH]; intros b all_rows log Hall.
  - simpl. by intros [= <-].
  - rewrite page_loop_cons.
    destruct (navigate s sort_by n b) as [[b'| |e] ev]; simpl.
    + destruct (rows_appear (view s b')); [|done].
      apply IH. apply Forall_app. split; [done|].
      apply Forall_forall. intros r Hr.
      apply list_elem_of_omap in Hr as (h & Hh & Hs).
      exists h. split; [|done]. by exists (sorted b'), (shown b').
    + by intros [= <-].
    + done.
Qed.

Lemma scraped_download_url g (h : row_handle) (r : IndicatorRow) :
  scraped g h = Some r →
  download_url r = []
  ∨ g = true ∧ ∃ c, excel_icon h = Some (Started (download_url r) c).
Proof.
  unfold scraped. destruct (validate h) as [rd|] eqn:Hv; [|done].
  apply validate_download_url in Hv. intros [= <-].
  unfold intercept. destruct g; [|by left].
  destruct (excel_icon h) as [[url [|]|]|]; simpl; eauto.
Qed.

(** C8: a row that the crawl returns has an empty [download_url] unless
    the download of its own handle was captured (then it is the URL of
    that download); with [get_download_links] off every returned row has
    an empty [download_url]. *)
Theorem download_url_empty_unless_captured
    (s : site) (maxpages : Z) (get_download_links : bool)
    (sort_by : pyval) (rows : list IndicatorRow) :
  (crawl_cnki_indicators s maxpages get_download_links sort_by).1 = Ok rows →
  Forall (λ r, ∃ h, on_site s h ∧ scraped get_download_links h = Some r
             ∧ (download_url r = []
                ∨ get_download_links = true
                  ∧ ∃ c, excel_icon h = Some (Started (download_url r) c)))
    rows
  ∧ (get_download_links = false → Forall (λ r, download_url r = []) rows).
Proof.
  unfold crawl_cnki_indicators.
  destruct (page_loop _ _ _ _ _ _ _) as [outcome log] eqn:E. simpl.
  intros ->.
  assert (H : Forall (λ r, ∃ h, on_site s h
                       ∧ scraped get_download_links h = Some r) rows).
  { eapply page_loop_rows; [|by rewrite E]. constructor. }
  split.
  - eapply Forall_impl; [exact H|]. intros r (h & Hon & Hs).
    exists h. split; [done|]. split; [done|].
    by apply scraped_download_url.
  - intros ->. eapply Forall_impl; [exact H|]. intros r (h & _ & Hs).
    apply scraped_download_url in Hs as [?|[? _]]; done.
Qed.

(** *** Counting in the log *)

Lemma iterations_app l1 l2 :
  iterations (l1 ++ l2) = iterations l1 + iterations l2.
Proof. unfold iterations. by rewrite List.filter_app, length_app. Qed.

Lemma pages_scraped_app l1 l2 :
  pages_scraped (l1 ++ l2) = pages_scraped l1 + pages_scraped l2.
Proof. unfold pages_scraped. by rewrite List.filter_app, length_app. Qed.

Lemma scrape_events_quiet g rows :
  iterations (concat (map (scrape_events g) rows)) = 0
  ∧ pages_scraped (concat (map (scrape_events g) rows)) = 0.
Proof.
  induction rows as [|h rows [IH1 IH2]]; [done|]. simpl.
  rewrite iterations_app, pages_scraped_app, IH1, IH2.
  unfold scrape_events. destruct (validate h) as [rd|]; [|done].
  unfold intercept. destruct g; [|done].
  by destruct (excel_icon h) as [[url [|]|]|].
Qed.

Lemma navigate_quiet s sort_by page_num b :
  iterations (navigate s sort_by page_num b).2 = 0
  ∧ pages_scraped (navigate s sort_by page_num b).2 = 0.
Proof.
  unfold navigate.
  destruct (page_num =? 0).
  - destruct (goto_settles s); [|done].
    destruct (requests_similarity sort_by); [|done].
    by destruct (sort_button s) as [[| |]|].
  - by destruct (next_button (view s b)) as [[|]|].
Qed.

Create Rewrite HintDb log_count.
Hint Rewrite iterations_app pages_scraped_app : log_count.

Ltac count_log :=
  autorewrite with log_count; cbn [iterations pages_scraped List.filter
    is_page_start is_page_done length].

Lemma page_loop_iterations s g sort_by page_nums b all_rows log :
  let log' := (page_loop s g sort_by page_nums b all_rows log).2 in
  iterations log' ≤ iterations log + length page_nums
  ∧ pages_scraped log' + iterations log
    ≤ iterations log' + pages_scraped log.
Proof.
  revert b all_rows log.
  induction page_nums as [|n rest IH]; intros b all_rows log.
  - simpl. lia.
  - cbv zeta. rewrite page_loop_cons.
    pose proof (navigate_quiet s sort_by n b) as [Hn1 Hn2].
    destruct (navigate s sort_by n b) as [[b'| |e] ev]; simpl in Hn1, Hn2.
    + destruct (rows_appear (view s b')).
      * cbv zeta.
        match goal with
        | |- context [page_loop _ _ _ _ ?b ?a ?l] =>
            specialize (IH b a l); cbv zeta in IH;
            destruct (page_loop s g sort_by rest b a l) as [o l'] eqn:E
        end.
        pose proof (scrape_events_quiet g (candidate_rows (view s b')))
          as [Hs1 Hs2].
        revert IH. cbn [snd]. count_log.
        rewrite Hn1, Hn2, Hs1, Hs2. simpl. lia.
      * cbn [snd]. count_log. rewrite Hn1, Hn2. simpl. lia.
    + cbn [snd]. count_log. rewrite Hn1, Hn2. simpl. lia.
    + cbn [snd]. count_log. rewrite Hn1, Hn2. simpl. lia.
Qed.

Lemma navigate_first s sort_by b b' ev :
  navigate s sort_by 0 b = (Shows b', ev) → shown b' = 0.
Proof.
  unfold navigate. simpl.
  destruct (goto_settles s); [|done].
  destruct (requests_similarity sort_by); [|by intros [= <- _]].
  by destruct (sort_button s) as [[| |]|]; intros [= <- _].
Qed.

Lemma navigate_next s sort_by i b :
  navigate s sort_by (S i) b
  = match next_button (view s b) with
    | None => (Break, [NoMorePages (S i)])
    | Some NextSettles =>
        (Shows {| sorted := sorted b; shown := S (shown b) |}, [])
    | Some NextTimeout => (Fatal TimeoutError, [])
    end.
Proof. done. Qed.

Section Exhaustion.

Variables (s : site) (g : bool) (sort_by : pyval) (k : nat).

(** The next-page control is absent or disabled on page [k] (the pages
    counted from 1 as the log counts them). *)
Hypothesis disabled_after_k :
  ∀ srt, next_button (page_at s srt (k - 1)) = None.

Lemma last_page_no_next b i :
  shown b + 1 = i → i = k → next_button (view s b) = None.
Proof.
  intros Hb Hi. unfold view.
  replace (shown b) with (k - 1) by lia. apply disabled_after_k.
Qed.

Lemma page_loop_stops m i b all_rows log :
  (0 < i → shown b + 1 = i) → i ≤ k → 1 ≤ k →
  pages_scraped (page_loop s g sort_by (seq i m) b all_rows log).2
  ≤ pages_scraped log + (k - i).
Proof.
  revert i b all_rows log.
  induction m as [|m IH]; intros i b all_rows log Hb Hik Hk.
  - simpl. lia.
  - cbn [seq]. rewrite page_loop_cons.
    pose proof (navigate_quiet s sort_by i b) as [_ Hn].
    pose proof (scrape_events_quiet g) as Hs.
    destruct i as [|i].
    + destruct (navigate s sort_by 0 b) as [[b'| |e] ev] eqn:E;
        simpl in Hn; cbn [snd]; count_log; rewrite ?Hn; simpl; try lia.
      destruct (rows_appear (view s b')); cbn [snd]; count_log;
        rewrite ?Hn; simpl; try lia.
      apply navigate_first in E.
      etrans; [apply IH; lia|]. count_log.
      rewrite Hn, (proj2 (Hs _)). simpl. lia.
    + rewrite navigate_next in *.
      assert (Hshown : shown b = i) by lia.
      destruct (decide (S i = k)) as [Heq|Hne].
      * rewrite (last_page_no_next b (S i)) by lia.
        cbn [snd]. count_log. simpl. lia.
      * destruct (next_button (view s b)) as [[|]|]; cbn [snd];
          count_log; simpl; try lia.
        destruct (rows_appear _); cbn [snd]; count_log; simpl; try lia.
        etrans; [apply IH; simpl; lia|]. count_log.
        rewrite (proj2 (Hs _)). simpl. lia.
Qed.

(** The site answers in time up to page [k]. *)
Hypothesis settles : goto_settles s = true.
Hypothesis rows_in_time :
  ∀ srt j, j < k → rows_appear (page_at s srt j) = true.
Hypothesis next_enabled :
  ∀ srt j, S j < k → next_button (page_at s srt j) = Some NextSettles.

Lemma page_loop_exhausts m i b all_rows log :
  shown b + 1 = i → i ≤ k → k < i + m →
  let run := page_loop s g sort_by (seq i m) b all_rows log in
  run.1 = Ok (all_rows ++ rows_of_pages s g (sorted b) i (k - i))
  ∧ pages_scraped run.2 = pages_scraped log + (k - i).
Proof.
  revert i b all_rows log.
  induction m as [|m IH]; intros i b all_rows log Hb Hik Hm; [lia|].
  destruct i as [|i]; [lia|].
  cbv zeta. cbn [seq]. rewrite page_loop_cons, navigate_next.
  assert (Hshown : shown b = i) by lia.
  destruct (decide (S i = k)) as [Heq|Hne].
  - rewrite (last_page_no_next b (S i)) by lia.
    cbn [fst snd]. replace (k - S i) with 0 by lia. unfold rows_of_pages. simpl.
    rewrite app_nil_r. split; [done|]. count_log. simpl. lia.
  - assert (Hnext : next_button (view s b) = Some NextSettles).
    { unfold view. rewrite Hshown. apply next_enabled. lia. }
    assert (Hrows : rows_appear
              (view s {| sorted := sorted b; shown := S (shown b) |}) = true).
    { unfold view. simpl. apply rows_in_time. lia. }
    rewrite Hnext, Hrows. cbv zeta.
    match goal with
    | |- context [page_loop _ _ _ _ ?b' ?a ?l] =>
        destruct (IH (S (S i)) b' a l) as [IH1 IH2];
          [simpl; lia|lia|lia|]
    end.
    rewrite IH1, IH2. unfold view. cbn [sorted shown]. rewrite Hshown. split.
    + rewrite <- app_assoc. do 2 f_equal.
      replace (k - S i) with (S (k - S (S i))) by lia.
      unfold rows_of_pages. by cbn [seq map concat].
    + count_log. rewrite (proj2 (scrape_events_quiet g _)). simpl. lia.
Qed.

End Exhaustion.

Lemma navigate_first_settles s sort_by b :
  goto_settles s = true →
  ∃ srt ev,
    navigate s sort_by 0 b = (Shows {| sorted := srt; shown := 0 |}, ev).
Proof.
  intros H. unfold navigate. simpl. rewrite H.
  destruct (requests_similarity sort_by); [|by eauto].
  destruct (sort_button s) as [[| |]|]; eauto.
Qed.

(** C4: the page loop makes at most [maxpages] passes whatever the
    next-page control reports; and when that control is absent or
    disabled on page [k] ([1 ≤ k < maxpages]), at most [k] pages are
    scraped, and exactly the [k] first ones when the site answers in
    time up to there (budget 5, control disabled on page 3: 3 pages). *)
Theorem pagination_within_budget
    (s : site) (maxpages : Z) (get_download_links : bool)
    (sort_by : pyval) :
  let run := crawl_cnki_indicators s maxpages get_download_links sort_by in
  iterations run.2 ≤ Z.to_nat maxpages
  ∧ pages_scraped run.2 ≤ iterations run.2
  ∧ ∀ k, 1 ≤ k → (Z.of_nat k < maxpages)%Z →
      (∀ srt, next_button (page_at s srt (k - 1)) = None) →
      pages_scraped run.2 ≤ k
      ∧ (goto_settles s = true →
         (∀ srt j, j < k → rows_appear (page_at s srt j) = true) →
         (∀ srt j, S j < k →
            next_button (page_at s srt j) = Some NextSettles) →
         pages_scraped run.2 = k
         ∧ ∃ srt, run.1 = Ok (rows_of_pages s get_download_links srt 0 k)).
Proof.
  unfold crawl_cnki_indicators, range.
  pose proof (page_loop_iterations s get_download_links sort_by
                (seq 0 (Z.to_nat maxpages)) new_page [] []) as Hit.
  cbv zeta in Hit. rewrite length_seq in Hit.
  destruct (page_loop _ _ _ _ _ _ _) as [outcome log] eqn:E.
  cbv zeta. cbn [fst snd] in *.
  rewrite iterations_app, pages_scraped_app.
  change (iterations []) with 0 in Hit.
  change (pages_scraped []) with 0 in Hit.
  change (iterations [BrowserClosed]) with 0.
  change (pages_scraped [BrowserClosed]) with 0.
  rewrite !Nat.add_0_r.
  split; [lia|]. split; [lia|].
  intros k Hk Hlt Hdis.
  assert (Hm : ∃ m, Z.to_nat maxpages = S m ∧ k ≤ m) by (exists (Z.to_nat maxpages - 1); lia).
  destruct Hm as (m & Hm & Hkm). rewrite Hm in E. split.
  - pose proof (page_loop_stops s get_download_links sort_by k Hdis
                  (S m) 0 new_page [] []) as Hstop.
    rewrite E in Hstop. cbn [snd] in Hstop.
    change (pages_scraped []) with 0 in Hstop.
    specialize (Hstop ltac:(lia) ltac:(lia) Hk). lia.
  - intros Hgoto Hrows Hnext.
    destruct (navigate_first_settles s sort_by new_page Hgoto)
      as (srt & ev & Hnav).
    cbn [seq] in E. rewrite page_loop_cons, Hnav in E.
    unfold view in E. cbn [sorted shown] in E.
    rewrite Hrows in E by lia. cbv zeta in E.
    pose proof (navigate_quiet s sort_by 0 new_page) as [_ Hq].
    rewrite Hnav in Hq. simpl in Hq.
    match type of E with
    | page_loop _ _ _ _ ?b' ?a ?l = _ =>
        destruct (page_loop_exhausts s get_download_links sort_by k Hdis
                    Hrows Hnext m 1 b' a l) as [H1 H2];
          [done|lia|lia|]
    end.
    rewrite E in H1, H2. cbn [fst snd sorted] in H1, H2.
    split.
    + rewrite H2. count_log.
      rewrite Hq, (proj2 (scrape_events_quiet get_download_links _)).
      simpl. lia.
    + exists srt. rewrite H1. f_equal. simpl.
      replace k with (S (k - 1)) at 2 by lia.
      unfold rows_of_pages. by cbn [seq map concat].
Qed.

(** ** A task that fails *)



Section Tasks.

Variable ucd : char → numeric_type.
Variable web : gmap str pyval → site.


End Tasks.


(** ** The fields of a validated row *)

Lemma clean_text_normalized (text : str) :
  normalized (Text.clean_text text).
Proof.
  exists (Text.split text).
  split; [apply TextFacts.split_words|apply TextFacts.clean_text_join].
Qed.

Lemma strip_lstrip_head (s : str) (c : char) (t : str) :
  Text.strip s = c :: t → Text.isspace c = false.
Proof.
  unfold Text.strip, Text.rstrip. intros H.
  destruct (Text.lstrip s) as [|d u] eqn:E; [done|].
  pose proof (TextFacts.lstrip_head _ _ _ E) as Hd.
  assert (Hu : ∃ v, Text.lstrip (rev (d :: u)) = v ++ [d]).
  { simpl. generalize (rev u). intros l.
    induction l as [|e l IH]; simpl.
    - rewrite Hd. by exists [].
    - destruct (Text.isspace e); [done|]. by exists (e :: l). }
  destruct Hu as [v Hv]. rewrite Hv, rev_app_distr in H.
  simpl in H. by injection H as <- _.
Qed.

Lemma strip_is_trimmed (s : str) : Text.trimmed (Text.strip s).
Proof.
  split.
  - destruct (Text.strip s) as [|c t] eqn:E; [done|].
    apply strip_lstrip_head in E. simpl. by rewrite E.
  - unfold Text.strip, Text.rstrip.
    by rewrite rev_involutive, TextFacts.lstrip_idemp.
Qed.

(** The six fields read through [get_clean_text] are normalized, and
    the indicator is not empty and neither starts nor ends with white
    space. *)
Lemma validate_fields (h : row_handle) (r : IndicatorRow) :
  validate h = Some r →
  normalized (time r) ∧ normalized (region r) ∧ normalized (value r)
  ∧ normalized (unit r) ∧ normalized (source r) ∧ normalized (page_no r)
  ∧ indicator r = Text.strip (nth 3 (td h) [])
  ∧ Text.trimmed (indicator r) ∧ indicator r ≠ [].
Proof.
  unfold validate. intros H.
  destruct (bounding_box h) as [b|]; [|done].
  destruct (Qeq_bool (height b) 0); [done|].
  destruct (length (td h) <? 8); [done|].
  destruct (Text.strip (nth 3 (td h) [])) as [|c t] eqn:E; [done|].
  injection H as <-. simpl.
  rewrite <- E.
  repeat split; try apply clean_text_normalized; try apply strip_is_trimmed.
  by rewrite E.
Qed.

(** C3 at [spaced_row]: the row is built, and its indicator is the text
    of the cell as it was, with the run of two line breaks inside, where
    [get_clean_text] of the same cell has one space. *)
Theorem indicator_is_only_stripped :
  ∃ r, validate spaced_row = Some r
       ∧ indicator r = two_line_cell
       ∧ repeated_whitespace (indicator r) = true
       ∧ Text.clean_text (nth 3 (td spaced_row) [])
         = Text.lit "GDP per capita"
       ∧ ¬ normalized (indicator r).
Proof.
  eexists. split; [by vm_compute|]. split; [by vm_compute|].
  split; [by vm_compute|]. split; [by vm_compute|].
  intros (ws & Hws & Hj). pose proof Hj as Hs.
  apply (f_equal Text.split) in Hs.
  rewrite TextFacts.split_join in Hs by done. subst ws.
  vm_compute in Hj. discriminate.
Qed.

(** ** The sink *)

Lemma stored_with_app k t1 t2 :
  stored_with k (t1 ++ t2) = stored_with k t1 + stored_with k t2.
Proof. unfold stored_with. by rewrite List.filter_app, length_app. Qed.

Lemma insert_or_ignore_cases t r :
  insert_or_ignore t r = (t, 0)
  ∨ insert_or_ignore t r = (t ++ [r], 1) ∧ existsb (collide r) t = false.
Proof.
  unfold insert_or_ignore.
  destruct (existsb _ NOT_NULL); [by left|].
  destruct (existsb (collide r) t); [by left|by right].
Qed.

Lemma no_collision_not_stored t r :
  existsb (collide r) t = false →
  forallb (λ v, negb (is_null v)) (unique_key r) = true →
  stored_with (unique_key r) t = 0.
Proof.
  intros Hex Hnn. induction t as [|r' t IH]; [done|].
  simpl in Hex. apply orb_false_iff in Hex as [Hc Hex].
  unfold stored_with. simpl. case_bool_decide as Hk.
  - unfold collide in Hc. rewrite Hnn, andb_true_r in Hc.
    by rewrite bool_decide_eq_false in Hc.
  - by apply IH.
Qed.

Lemma insert_or_ignore_at_most_once t r :
  at_most_once t → at_most_once (insert_or_ignore t r).1.
Proof.
  intros Ht. destruct (insert_or_ignore_cases t r) as [->|[-> Hex]]; [done|].
  intros k Hk. simpl. rewrite stored_with_app.
  unfold stored_with at 2. simpl. case_bool_decide as Hr; simpl.
  - subst k. rewrite no_collision_not_stored by done. lia.
  - specialize (Ht k Hk). lia.
Qed.

Lemma insert_all_spec records t c t' c' :
  insert_all t c records = Ok (t', c') →
  ∃ new, t' = t ++ new ∧ c' = c + length new
         ∧ (at_most_once t → at_most_once t').
Proof.
  revert t c. induction records as [|rec records IH]; intros t c.
  - simpl. intros [= <- <-]. exists []. by rewrite app_nil_r, Nat.add_0_r.
  - simpl. destruct (bind_all rec) as [r|e]; [|done].
    pose proof (insert_or_ignore_at_most_once t r) as Hinv.
    destruct (insert_or_ignore_cases t r) as [E|[E _]];
      rewrite E in *; simpl in Hinv; intros H;
      apply IH in H as (new & -> & -> & Hnew).
    + exists new. rewrite Nat.add_0_r. done.
    + exists (r :: new). rewrite <- app_assoc in *. simpl.
      split; [done|]. split; [lia|]. intros Ht. by apply Hnew, Hinv.
Qed.


Lemma bind_all_app l1 l2 b1 b2 :
  bind_all l1 = Ok b1 → bind_all l2 = Ok b2 →
  bind_all (l1 ++ l2) = Ok (b1 ++ b2).
Proof.
  revert b1. induction l1 as [|v l1 IH]; intros b1; simpl.
  - by intros [= <-].
  - destruct (bind v) as [b|]; [|done].
    destruct (bind_all l1) as [bs|]; [|done].
    intros [= <-] H2. by rewrite (IH bs eq_refl H2).
Qed.

Lemma bind_all_length l b : bind_all l = Ok b → length b = length l.
Proof.
  revert b. induction l as [|v l IH]; intros b; simpl.
  - by intros [= <-].
  - destruct (bind v); [|done]. destruct (bind_all l) as [bs|]; [|done].
    intros [= <-]. simpl. by rewrite (IH bs).
Qed.

Lemma bind_record meta bound r :
  bind_all meta = Ok bound →
  bind_all (record_of meta r) = Ok (bound ++ row_columns r).
Proof. intros H. unfold record_of. by apply bind_all_app. Qed.

Lemma unique_key_record (bound : list sqlval) r :
  length bound = 7 → unique_key (bound ++ row_columns r) = key_of_row r.
Proof.
  intros H. do 8 (destruct bound as [|? bound]; try discriminate H).
  reflexivity.
Qed.

Lemma key_of_row_not_null r :
  forallb (λ v, negb (is_null v)) (key_of_row r) = true.
Proof. reflexivity. Qed.

Lemma not_null_record (bound : list sqlval) r :
  length bound = 7 →
  existsb (λ i, is_null (column i (bound ++ row_columns r))) NOT_NULL
  = false.
Proof.
  intros H. do 8 (destruct bound as [|? bound]; try discriminate H).
  reflexivity.
Qed.



Section Sink.

Variable ucd : char → numeric_type.

Lemma meta_of_length params meta :
  meta_of ucd params = Ok meta → length meta = 7.
Proof.
  unfold meta_of. destruct (search_mode_one _ _); [|done].
  by intros [= <-].
Qed.

Lemma search_mode_one_absent v :
  digit_like ucd v = false → search_mode_one ucd v = Ok PNone.
Proof. destruct v as [|b|z|bits|s|id]; simpl; try done; by intros ->. Qed.

Lemma search_mode_one_integer v z :
  search_mode_one ucd v = Ok (PInt z) → digit_like ucd v = true.
Proof.
  destruct v as [|b|z'|bits|s|id]; simpl; try done.
  - by destruct (isdigit ucd (str_bool b)).
  - by destruct (isdigit ucd (str_int z')).
  - by destruct (isdigit ucd s).
Qed.

Lemma search_mode_one_digit_like v :
  digit_like ucd v = true →
  (∃ z, search_mode_one ucd v = Ok (PInt z))
  ∨ (∃ s, v = PStr s ∧ search_mode_one ucd v = Raise ValueError).
Proof.
  destruct v as [|b|z'|bits|s|id]; simpl; try done; intros ->; eauto.
  destruct (int_digits ucd 0 s) as [z|e] eqn:E; [eauto|right].
  exists s. split; [done|]. f_equal.
  clear -E. revert E. generalize 0%Z.
  induction s as [|c s IH]; intros acc; simpl; [done|].
  destruct (numeric ucd c); try by intros [= <-]. apply IH.
Qed.

(** A call leaves a table that extends the one it found and keeps the
    constraint. *)
Lemma save_extends rows params st t :
  table st = Some t →
  ∃ new, table (save_indicators_to_db ucd rows params st).2 = Some (t ++ new)
         ∧ (at_most_once t → at_most_once (t ++ new)).
Proof.
  intros Ht. unfold save_indicators_to_db.
  assert (Hsame : ∃ new, Some t = Some (t ++ new)
                    ∧ (at_most_once t → at_most_once (t ++ new))).
  { exists []. by rewrite app_nil_r. }
  destruct rows as [|r rows]; [by simpl; rewrite Ht|].
  destruct (meta_of ucd params) as [meta|e]; [|by simpl; rewrite Ht].
  cbv zeta. cbn [emit table]. rewrite Ht. unfold executemany.
  destruct (insert_all t 0 _) as [[t' c']|e] eqn:E.
  - apply insert_all_spec in E as (new & -> & _ & Hnew).
    simpl. by exists new.
  - destruct e; simpl; by rewrite Ht.
Qed.



(** C10: with no row the sink returns 0 and leaves the state as it is
    (no connection is made); when the insert fails with a database
    error, the sink returns [None], after the error was printed and the
    connection closed, and the table is as before. *)
Theorem sink_empty_batch_and_database_error :
  (∀ params st, save_indicators_to_db ucd [] params st = (Ok (Some 0), st))
  ∧ (∀ rows params st meta,
       rows ≠ [] →
       meta_of ucd params = Ok meta →
       executemany (table st) (map (record_of meta) rows)
       = Raise Sqlite3Error →
       let run := save_indicators_to_db ucd rows params st in
       run.1 = Ok None
       ∧ table run.2 = table st
       ∧ log run.2 = log st ++ [DbConnected; DbWriteError; DbClosed]).
Proof.
  split; [done|].
  intros rows params st meta Hrows Hmeta Hexec.
  unfold save_indicators_to_db.
  destruct rows as [|r rows]; [done|].
  rewrite Hmeta. cbv zeta. cbn [emit table]. rewrite Hexec. simpl.
  by rewrite <- app_assoc.
Qed.

End Sink.

(** * Runs on concrete inputs *)

(** C9 at [superscript_task]: [²] passes [isdigit], [int] rejects it,
    and the [ValueError] leaves the sink before anything is written; in
    [main] the row that the task parsed is not stored. *)
Theorem superscript_digit_breaks_save (ucd : char → numeric_type) :
  digit_like ucd (get superscript_task "searchModeOne") = true
  ∧ save_indicators_to_db ucd [gdp_2020] superscript_task fresh
    = (Raise ValueError, emit fresh [DbConnected])
  ∧ (let st := main ucd (λ _, one_page_site) (Some [superscript_task])
                 {| table := None; log := [] |} in
     TaskParsed 1 ∈ log st ∧ TaskError 0 ValueError ∈ log st
     ∧ table st = Some []).
Proof.
  split; [by vm_compute|]. split; [by vm_compute|].
  vm_compute. split; [|split; [|done]]; set_solver.
Qed.

Lemma scenario_A_six_rows :
  length scenario_A = 10
  ∧ length (List.filter excluded scenario_A) = 4
  ∧ length (scrape_rows false scenario_A [] []).1 = 6.
Proof.
  split; [reflexivity|]. split; [vm_compute; reflexivity|].
  apply (row_validator_excludes_exactly false scenario_A []);
    vm_compute; reflexivity.
Defined.


Lemma download_url_of_a_crawl :
  (crawl_cnki_indicators download_site 5 false PNone).1 = Ok [gdp_2020]
  ∧ Forall (λ r, download_url r = []) [gdp_2020].
Proof.
  split; [vm_compute; reflexivity|].
  apply (download_url_empty_unless_captured download_site 5 false PNone
           [gdp_2020]); [vm_compute|]; reflexivity.
Defined.

Lemma scenario_B_three_pages :
  (∀ srt, next_button (page_at three_page_site srt (3 - 1)) = None)
  ∧ pages_scraped (crawl_cnki_indicators three_page_site 5 false PNone).2 = 3.
Proof.
  split; [intros srt; reflexivity|].
  destruct (pagination_within_budget three_page_site 5 false PNone)
    as (_ & _ & H).
  destruct (H 3) as [_ H3]; [lia|lia|intros srt; reflexivity|].
  apply H3; [reflexivity|intros srt j Hj; reflexivity|].
  intros srt [|[|j]] Hj; [reflexivity|reflexivity|lia].
Defined.



(** A database file in which [setup_indicator_database] never ran. *)
Lemma save_without_table :
  executemany None (map (record_of [PNone]) [gdp_2020]) = Raise Sqlite3Error
  ∧ (save_indicators_to_db latin1_only [gdp_2020] plain_task
       {| table := None; log := [] |}).1 = Ok None.
Proof.
  split; [reflexivity|].
  destruct (sink_empty_batch_and_database_error latin1_only) as [_ H].
  eapply (H [gdp_2020] plain_task {| table := None; log := [] |});
    [done|vm_compute; reflexivity|reflexivity].
Defined.

(** * Further properties of the code *)

(** ** get_clean_text *)

Lemma split_nil (s : str) :
  Text.split s = [] ↔ forallb Text.isspace s = true.
Proof.
  induction s as [|c s IH]; [done|].
  destruct (Text.isspace c) eqn:Hc.
  - rewrite TextFacts.split_space by done. simpl. by rewrite Hc.
  - cbn [forallb]. rewrite Hc. cbn [andb]. split; [|done].
    destruct s as [|d s]; [by rewrite TextFacts.split_last|].
    destruct (Text.isspace d) eqn:Hd.
    + by rewrite TextFacts.split_sep.
    + rewrite TextFacts.split_cont by done.
      by destruct (Text.split (d :: s)).
Qed.

Lemma join_nil (ws : list str) :
  Forall Text.word ws → Text.join [Text.SPACE] ws = [] → ws = [].
Proof.
  destruct ws as [|w ws]; [done|]. intros H E. exfalso.
  inversion H as [|? ? [Hne _] _]; subst.
  by apply (TextFacts.join_nonempty [Text.SPACE] w ws).
Qed.

(** X3: the text that [get_clean_text] returns is empty exactly when the
    text of the cell is empty or made of white space only. *)
Theorem clean_text_empty_iff_blank (text : str) :
  Text.clean_text text = [] ↔ forallb Text.isspace text = true.
Proof.
  rewrite TextFacts.clean_text_join, <- split_nil. split.
  - apply join_nil, TextFacts.split_words.
  - by intros ->.
Qed.

Lemma concat_cons_word (c : char) (ws : list str) :
  concat (Text.cons_word c ws) = c :: concat ws.
Proof. by destruct ws. Qed.

Lemma concat_split (s : str) : concat (Text.split s) = visible s.
Proof.
  induction s as [|c s IH]; [done|]. unfold visible in *.
  destruct (Text.isspace c) eqn:Hc.
  - rewrite TextFacts.split_space by done. simpl. by rewrite Hc.
  - cbn [List.filter]. rewrite Hc. cbn [negb]. rewrite <- IH.
    destruct s as [|d s]; [by rewrite TextFacts.split_last|].
    destruct (Text.isspace d) eqn:Hd.
    + rewrite TextFacts.split_sep by done.
      by rewrite (TextFacts.split_space d s Hd).
    + rewrite TextFacts.split_cont by done. apply concat_cons_word.
Qed.

Lemma visible_app (s t : str) : visible (s ++ t) = visible s ++ visible t.
Proof. apply List.filter_app. Qed.

Lemma visible_word (w : str) : Text.word w → visible w = w.
Proof.
  intros [_ H]. unfold visible.
  induction H as [|c w Hc _ IH]; [done|]. simpl. by rewrite Hc, IH.
Qed.

Lemma visible_join (ws : list str) :
  Forall Text.word ws → visible (Text.join [Text.SPACE] ws) = concat ws.
Proof.
  induction ws as [|w ws IH]; intros H; [done|].
  inversion H as [|? ? Hw Hws]; subst.
  destruct ws as [|w' ws].
  - simpl. rewrite app_nil_r. by apply visible_word.
  - change (Text.join [Text.SPACE] (w :: w' :: ws))
      with (w ++ [Text.SPACE] ++ Text.join [Text.SPACE] (w' :: ws)).
    rewrite !visible_app, IH, visible_word by done. done.
Qed.

(** X2: [get_clean_text] neither drops, adds nor reorders a character that
    is not white space. *)
Theorem clean_text_keeps_visible_characters (text : str) :
  visible (Text.clean_text text) = visible text.
Proof.
  rewrite TextFacts.clean_text_join.
  rewrite visible_join by apply TextFacts.split_words.
  apply concat_split.
Qed.

Lemma repeated_whitespace_step (c d : char) (s : str) :
  repeated_whitespace (c :: d :: s)
  = Text.isspace c && Text.isspace d || repeated_whitespace (d :: s).
Proof. done. Qed.

Lemma word_no_repeat (w rest : str) :
  Text.word w →
  repeated_whitespace (w ++ Text.SPACE :: rest)
  = repeated_whitespace (Text.SPACE :: rest).
Proof.
  induction w as [|c w IH]; intros Hw; [by destruct Hw|].
  apply TextFacts.word_cons_inv in Hw as [Hc [->|Hw]].
  - simpl. by rewrite Hc.
  - destruct w as [|d w]; [by destruct Hw|].
    specialize (IH Hw). simpl in *. by rewrite Hc.
Qed.

Lemma word_alone_no_repeat (w : str) :
  Text.word w → repeated_whitespace w = false.
Proof.
  intros [_ H]. induction H as [|c w Hc Hw IH]; [done|].
  destruct w as [|d w]; [done|]. simpl in *. by rewrite Hc.
Qed.

Lemma normalized_shape (s : str) :
  normalized s →
  Text.trimmed s ∧ repeated_whitespace s = false
  ∧ Forall (λ c, Text.isspace c = true → c = Text.SPACE) s.
Proof.
  intros (ws & Hws & ->).
  split; [by apply TextFacts.join_words_trimmed|].
  induction Hws as [|w ws Hw Hws [IH1 IH2]]; [done|].
  destruct ws as [|w' ws].
  - simpl. split; [by apply word_alone_no_repeat|].
    destruct Hw as [_ Hw]. eapply Forall_impl; [exact Hw|].
    intros c Hc. by rewrite Hc.
  - change (Text.join [Text.SPACE] (w :: w' :: ws))
      with (w ++ Text.SPACE :: Text.join [Text.SPACE] (w' :: ws)).
    split.
    + rewrite word_no_repeat by done.
      pose proof (TextFacts.join_words_trimmed (w' :: ws) Hws) as [Hl _].
      destruct (Text.join [Text.SPACE] (w' :: ws)) as [|d rest] eqn:E.
      { exfalso. revert E. apply TextFacts.join_nonempty.
        inversion Hws as [|? ? [Hne _] _]; by subst. }
      apply TextFacts.lstrip_head in Hl.
      rewrite repeated_whitespace_step, Hl, andb_false_r. exact IH1.
    + apply Forall_app. split.
      * destruct Hw as [_ Hw]. eapply Forall_impl; [exact Hw|].
        intros c Hc. by rewrite Hc.
      * by constructor.
Qed.

(** X1: the text that [get_clean_text] returns neither starts nor ends with
    white space, has no two white-space characters in a row, and its
    only white-space character is the plain space. *)
Theorem clean_text_shape (text : str) :
  Text.trimmed (Text.clean_text text)
  ∧ repeated_whitespace (Text.clean_text text) = false
  ∧ Forall (λ c, Text.isspace c = true → c = Text.SPACE)
      (Text.clean_text text).
Proof. apply normalized_shape, clean_text_normalized. Qed.

(** ** crawl_cnki_indicators *)






Lemma rows_of_pages_nil s g srt i : rows_of_pages s g srt i 0 = [].
Proof. done. Qed.

Lemma rows_of_pages_cons s g srt i n :
  rows_of_pages s g srt i (S n)
  = omap (scraped g) (candidate_rows (page_at s srt i))
    ++ rows_of_pages s g srt (S i) n.
Proof. done. Qed.

Lemma page_loop_page_order s g sort_by m i b all_rows log rows :
  (0 < i → shown b + 1 = i) →
  (page_loop s g sort_by (seq i m) b all_rows log).1 = Ok rows →
  ∃ srt n,
    (0 < i → srt = sorted b) ∧ n ≤ m
    ∧ rows = all_rows ++ rows_of_pages s g srt i n
    ∧ pages_scraped (page_loop s g sort_by (seq i m) b all_rows log).2
      = pages_scraped log + n.
Proof.
  revert i b all_rows log.
  induction m as [|m IH]; intros i b all_rows log Hb.
  { simpl. intros [= <-]. exists (sorted b), 0.
    rewrite rows_of_pages_nil, app_nil_r. by rewrite Nat.add_0_r. }
  cbn [seq]. rewrite page_loop_cons.
  pose proof (navigate_quiet s sort_by i b) as [_ Hq].
  assert (Hstay : ∀ ev, pages_scraped ev = 0 →
            ∃ srt n, (0 < i → srt = sorted b) ∧ n ≤ S m
              ∧ all_rows = all_rows ++ rows_of_pages s g srt i n
              ∧ pages_scraped ((log ++ [ProcessingPage i]) ++ ev)
                = pages_scraped log + n).
  { intros ev Hev. exists (sorted b), 0.
    rewrite rows_of_pages_nil, app_nil_r. count_log. rewrite Hev.
    simpl. repeat split; lia. }
  destruct (navigate s sort_by i b) as [[b'| |e] ev] eqn:Hnav;
    simpl in Hq; cbn [fst snd]; [|intros [= <-]; by apply Hstay|done].
  destruct (rows_appear (view s b')); [|done]. cbv zeta.
  assert (Hb' : shown b' = i ∧ (0 < i → sorted b' = sorted b)).
  { destruct i as [|i].
    - split; [by eapply navigate_first|lia].
    - rewrite navigate_next in Hnav.
      destruct (next_button (view s b)) as [[|]|]; try done.
      injection Hnav as <- _. simpl. split; [lia|done]. }
  destruct Hb' as [Hshown Hsorted].
  intros Hrows.
  destruct (IH (S i) b' _ _ ltac:(lia) Hrows)
    as (srt & n & Hsrt & Hn & -> & Hcount).
  exists srt, (S n). split; [intros Hi; rewrite Hsrt by lia; auto|].
  split; [lia|]. split.
  - rewrite rows_of_pages_cons, <- app_assoc. do 2 f_equal.
    unfold view. by rewrite Hshown, Hsrt by lia.
  - rewrite Hcount. count_log.
    rewrite Hq, (proj2 (scrape_events_quiet g _)). simpl. lia.
Qed.

(** X5: the rows that a crawl returns are the validated rows of the
    first [n] pages of the site, page after page and each page in the
    order of its rows, where [n] is the number of pages the log reports
    as scraped and is at most [maxpages]. *)
Theorem crawl_rows_in_page_order
    (s : site) (maxpages : Z) (get_download_links : bool)
    (sort_by : pyval) (rows : list IndicatorRow) :
  let run := crawl_cnki_indicators s maxpages get_download_links sort_by in
  run.1 = Ok rows →
  ∃ srt n,
    n ≤ Z.to_nat maxpages
    ∧ pages_scraped run.2 = n
    ∧ rows = rows_of_pages s get_download_links srt 0 n.
Proof.
  unfold crawl_cnki_indicators, range.
  pose proof (page_loop_page_order s get_download_links sort_by
                (Z.to_nat maxpages) 0 new_page [] [] rows) as H.
  destruct (page_loop _ _ _ _ _ _ _) as [o l]. cbn [fst snd] in *.
  intros Ho. destruct (H ltac:(lia) Ho) as (srt & n & _ & Hn & -> & Hc).
  exists srt, n. split; [done|]. split; [|done].
  rewrite pages_scraped_app, Hc. done.
Qed.


Lemma with_download_url_same (r : IndicatorRow) :
  with_download_url r (download_url r) = r.
Proof. by destruct r. Qed.

Lemma scraped_fields g (h : row_handle) (r : IndicatorRow) :
  scraped g h = Some r →
  ∃ rd, validate h = Some rd ∧ r = with_download_url rd (download_url r).
Proof.
  unfold scraped. destruct (validate h) as [rd|]; [|done].
  intros [= <-]. exists rd. split; [done|].
  unfold intercept. destruct g; [|by rewrite with_download_url_same].
  destruct (excel_icon h) as [[url [|]|]|]; simpl;
    by rewrite ?with_download_url_same.
Qed.

(** X9: the download step changes no field of a validated row but
    [download_url]; when the download of the row starts, the field is
    the URL of that download, whether or not the cancellation succeeds;
    with the option off, or no Excel icon in the row, the row is left
    as validated and nothing is printed. *)
Theorem interceptor_only_sets_download_url
    (get_download_links : bool) (h : row_handle)
    (row_data r : IndicatorRow) :
  validate h = Some row_data →
  scraped get_download_links h = Some r →
  r = with_download_url row_data (download_url r)
  ∧ (∀ url c, get_download_links = true →
       excel_icon h = Some (Started url c) → download_url r = url)
  ∧ (get_download_links = false ∨ excel_icon h = None →
     r = row_data ∧ scrape_events get_download_links h = []).
Proof.
  intros Hv Hs. split.
  - apply scraped_fields in Hs as (rd & Hrd & ->). simpl. congruence.
  - unfold scraped, scrape_events in *. rewrite Hv in *.
    injection Hs as <-. unfold intercept. split.
    + intros url c -> ->. by destruct c.
    + intros [->| ->]; [done|]. by destruct get_download_links.
Qed.

Lemma well_formed_with_download_url (r : IndicatorRow) (u : str) :
  well_formed r → well_formed (with_download_url r u).
Proof. done. Qed.

Lemma scraped_well_formed g (h : row_handle) (r : IndicatorRow) :
  scraped g h = Some r → well_formed r.
Proof.
  intros (rd & Hv & ->)%scraped_fields.
  apply well_formed_with_download_url.
  apply validate_fields in Hv. unfold well_formed. tauto.
Qed.

(** X4: every row that the crawl returns has an indicator that is not
    empty and neither starts nor ends with white space, and its time,
    region, value, unit, source and page number are normalized (words
    joined by single spaces, possibly none). *)
Theorem crawled_rows_well_formed
    (s : site) (maxpages : Z) (get_download_links : bool)
    (sort_by : pyval) (rows : list IndicatorRow) :
  (crawl_cnki_indicators s maxpages get_download_links sort_by).1 = Ok rows →
  Forall well_formed rows.
Proof.
  unfold crawl_cnki_indicators.
  destruct (page_loop _ _ _ _ _ _ _) as [o l] eqn:E. simpl. intros ->.
  eapply Forall_impl.
  - eapply page_loop_rows; [|by rewrite E]. constructor.
  - intros r (h & _ & Hs). by eapply scraped_well_formed.
Qed.

(** *** The sort preference *)

Lemma page_loop_same_navigation s g sb1 sb2 :
  (∀ n b, (navigate s sb1 n b).1 = (navigate s sb2 n b).1) →
  ∀ page_nums b all_rows log1 log2,
    (page_loop s g sb1 page_nums b all_rows log1).1
    = (page_loop s g sb2 page_nums b all_rows log2).1.
Proof.
  intros Hnav page_nums.
  induction page_nums as [|n rest IH]; intros b all_rows log1 log2; [done|].
  rewrite !page_loop_cons. specialize (Hnav n b).
  destruct (navigate s sb1 n b) as [nav1 ev1].
  destruct (navigate s sb2 n b) as [nav2 ev2].
  simpl in Hnav. subst nav2. destruct nav1 as [b'| |e]; try done.
  destruct (rows_appear (view s b')); [|done]. apply IH.
Qed.

Lemma page_loop_navigate_ext s g sb1 sb2 :
  (∀ n b, navigate s sb1 n b = navigate s sb2 n b) →
  ∀ page_nums b all_rows log,
    page_loop s g sb1 page_nums b all_rows log
    = page_loop s g sb2 page_nums b all_rows log.
Proof.
  intros Hnav page_nums.
  induction page_nums as [|n rest IH]; intros b all_rows log; [done|].
  rewrite !page_loop_cons, Hnav.
  destruct (navigate s sb2 n b) as [[b'| |e] ev]; try done.
  destruct (rows_appear (view s b')); [|done]. apply IH.
Qed.

(** X8: a sort preference other than ['相关度'] changes nothing in the
    crawl; and when the sort control is missing or its click raises, the
    crawl returns or raises exactly what it does without a preference
    (the rows come in the default order). *)
Theorem sort_preference_degrades
    (s : site) (maxpages : Z) (get_download_links : bool)
    (sort_by : pyval) :
  (requests_similarity sort_by = false →
   crawl_cnki_indicators s maxpages get_download_links sort_by
   = crawl_cnki_indicators s maxpages get_download_links PNone)
  ∧ (sort_button s = None ∨ sort_button s = Some SortClickRaises →
     (crawl_cnki_indicators s maxpages get_download_links sort_by).1
     = (crawl_cnki_indicators s maxpages get_download_links PNone).1).
Proof.
  unfold crawl_cnki_indicators. split.
  - intros H. rewrite (page_loop_navigate_ext s get_download_links
                         sort_by PNone); [done|].
    intros n b. unfold navigate. by rewrite H.
  - intros H.
    pose proof (page_loop_same_navigation s get_download_links sort_by PNone)
      as Hsame.
    specialize (Hsame (fun n b => ltac:(
      unfold navigate; destruct (n =? 0); [|done];
      destruct (goto_settles s); [|done];
      destruct (requests_similarity sort_by); [|done];
      by destruct H as [-> | ->]))).
    specialize (Hsame (range maxpages) new_page [] [] []).
    destruct (page_loop s get_download_links sort_by _ _ _ _).
    destruct (page_loop s get_download_links PNone _ _ _ _).
    exact Hsame.
Qed.

(** ** save_indicators_to_db *)

Lemma collide_stored t (bound : list sqlval) r :
  length bound = 7 →
  existsb (collide (bound ++ row_columns r)) t = true
  ↔ key_of_row r ∈ map unique_key t.
Proof.
  intros Hlen. rewrite existsb_exists. unfold collide.
  rewrite unique_key_record by done. split.
  - intros (r' & Hin & Hc). apply andb_true_iff in Hc as [Hk _].
    apply bool_decide_eq_true in Hk. rewrite Hk.
    apply list_elem_of_fmap. exists r'. by rewrite list_elem_of_In.
  - intros (r' & Hk & Hin)%list_elem_of_fmap. exists r'.
    split; [by apply list_elem_of_In|].
    rewrite key_of_row_not_null, andb_true_r. by apply bool_decide_eq_true.
Qed.

Lemma insert_record t (bound : list sqlval) r :
  length bound = 7 →
  insert_or_ignore t (bound ++ row_columns r)
  = if bool_decide (key_of_row r ∈ map unique_key t) then (t, 0)
    else (t ++ [bound ++ row_columns r], 1).
Proof.
  intros Hlen. unfold insert_or_ignore. rewrite not_null_record by done.
  pose proof (collide_stored t bound r Hlen) as H.
  case_bool_decide as Hin.
  - by rewrite (proj2 H Hin).
  - destruct (existsb _ t); [|done]. exfalso. apply Hin. by apply H.
Qed.

(** What a batch adds to the table. *)
Lemma insert_all_batch meta (bound : list sqlval) rows :
  length bound = 7 → bind_all meta = Ok bound →
  ∀ t c, ∃ new,
    insert_all t c (map (record_of meta) rows)
    = Ok (t ++ new, c + length new)
    ∧ NoDup (map unique_key new)
    ∧ (∀ k, k ∈ map unique_key new
          ↔ k ∈ map key_of_row rows ∧ k ∉ map unique_key t)
    ∧ Forall (λ rec, ∃ r, r ∈ rows ∧ rec = bound ++ row_columns r) new.
Proof.
  intros Hlen Hb. induction rows as [|r rows IH]; intros t c.
  { exists []. simpl. rewrite app_nil_r, Nat.add_0_r.
    split; [done|]. split; [constructor|]. split; [|constructor].
    intros k. split; [intros H|intros [H _]]; inversion H. }
  cbn [map insert_all]. rewrite (bind_record _ _ _ Hb), insert_record by done.
  case_bool_decide as Hin.
  - destruct (IH t (c + 0)) as (new & -> & Hnd & Hk & Hall).
    exists new. rewrite Nat.add_0_r. split; [done|]. split; [done|]. split.
    + intros k. rewrite Hk, elem_of_cons. split; [tauto|].
      intros [[->|H] Hout]; [contradiction|done].
    + eapply Forall_impl; [exact Hall|]. intros rec (r' & Hr' & ->).
      exists r'. split; [|done]. apply elem_of_cons. by right.
  - destruct (IH (t ++ [bound ++ row_columns r]) (c + 1))
      as (new & -> & Hnd & Hk & Hall).
    exists ((bound ++ row_columns r) :: new).
    rewrite <- app_assoc. cbn [app length map].
    replace (c + 1 + length new) with (c + S (length new)) by lia.
    split; [done|].
    assert (Hkey : unique_key (bound ++ row_columns r) = key_of_row r)
      by by apply unique_key_record.
    rewrite Hkey.
    assert (Hk' : ∀ k, k ∈ map unique_key new
                       ↔ k ∈ map key_of_row rows
                         ∧ ¬ (k ∈ map unique_key t ∨ k = key_of_row r)).
    { intros k. rewrite Hk, map_app, elem_of_app. cbn [map].
      by rewrite Hkey, list_elem_of_singleton. }
    split; [|split].
    + constructor; [|done]. intros Hnew. apply Hk' in Hnew. tauto.
    + intros k. rewrite !elem_of_cons, Hk'.
      destruct (decide (k = key_of_row r)) as [->|]; tauto.
    + constructor.
      * exists r. split; [|done]. apply elem_of_cons. by left.
      * eapply Forall_impl; [exact Hall|]. intros rec (r' & Hr' & ->).
        exists r'. split; [|done]. apply elem_of_cons. by right.
Qed.

Section SinkBatches.

Variable ucd : char → numeric_type.

(** A call on a database that has the table, with parameters whose
    metadata bind. *)
Lemma save_batch rows params st t meta (bound : list sqlval) :
  table st = Some t →
  meta_of ucd params = Ok meta → bind_all meta = Ok bound →
  ∃ new,
    (save_indicators_to_db ucd rows params st).1 = Ok (Some (length new))
    ∧ table (save_indicators_to_db ucd rows params st).2 = Some (t ++ new)
    ∧ NoDup (map unique_key new)
    ∧ (∀ k, k ∈ map unique_key new
          ↔ k ∈ map key_of_row rows ∧ k ∉ map unique_key t)
    ∧ Forall (λ rec, ∃ r, r ∈ rows ∧ rec = bound ++ row_columns r) new.
Proof.
  intros Ht Hmeta Hb.
  assert (Hlen : length bound = 7).
  { rewrite (bind_all_length _ _ Hb). by eapply meta_of_length. }
  destruct (insert_all_batch meta bound rows Hlen Hb t 0)
    as (new & Hins & Hrest).
  exists new. unfold save_indicators_to_db.
  destruct rows as [|r rows].
  - simpl in Hins. injection Hins as Hnew _.
    assert (new = []) as ->.
    { apply (f_equal length) in Hnew. rewrite length_app in Hnew.
      destruct new; [done|simpl in Hnew; lia]. }
    simpl. by rewrite Ht, app_nil_r.
  - rewrite Hmeta. cbv zeta. cbn [emit table]. rewrite Ht.
    unfold executemany. rewrite Hins. done.
Qed.




(** X15: the order of the rows in a batch does not matter: a batch and
    a rearrangement of it return the same count and leave the same keys
    stored. *)
Theorem save_order_independent
    rows rows' params st t meta (bound : list sqlval) :
  table st = Some t →
  meta_of ucd params = Ok meta → bind_all meta = Ok bound →
  rows ≡ₚ rows' →
  (save_indicators_to_db ucd rows params st).1
  = (save_indicators_to_db ucd rows' params st).1
  ∧ ∃ t1 t2,
      table (save_indicators_to_db ucd rows params st).2 = Some t1
      ∧ table (save_indicators_to_db ucd rows' params st).2 = Some t2
      ∧ map unique_key t1 ≡ₚ map unique_key t2.
Proof.
  intros Ht Hmeta Hb Hperm.
  destruct (save_batch rows params st t meta bound Ht Hmeta Hb)
    as (new & Hres & Ht' & Hnd & Hk & _).
  destruct (save_batch rows' params st t meta bound Ht Hmeta Hb)
    as (new' & Hres' & Ht'' & Hnd' & Hk' & _).
  assert (Hp : map unique_key new ≡ₚ map unique_key new').
  { apply NoDup_Permutation; [done|done|]. intros k.
    rewrite Hk, Hk'. by rewrite Hperm. }
  split.
  - rewrite Hres, Hres'. do 2 f_equal.
    rewrite <- (length_map unique_key new), <- (length_map unique_key new').
    by rewrite Hp.
  - exists (t ++ new), (t ++ new'). split; [done|]. split; [done|].
    by rewrite !map_app, Hp.
Qed.


End SinkBatches.

Lemma bind_all_app_raise l1 l2 e :
  bind_all l1 = Raise e → bind_all (l1 ++ l2) = Raise e.
Proof.
  induction l1 as [|v l1 IH]; [done|]. simpl.
  destruct (bind v) as [b|e']; [|done].
  destruct (bind_all l1) as [bs|e']; [done|].
  intros [= ->]. by rewrite IH.
Qed.

Lemma search_mode_one_raises ucd v e :
  search_mode_one ucd v = Raise e → e = ValueError.
Proof.
  destruct v as [|b|z|bits|s|id]; simpl; try done.
  - by destruct (isdigit ucd (str_bool b)).
  - by destruct (isdigit ucd (str_int z)).
  - destruct (isdigit ucd s); [|done].
    destruct (int_digits ucd 0 s) as [z|e'] eqn:E; [done|].
    intros [= <-]. clear -E. revert E. generalize 0%Z.
    induction s as [|c s IH]; intros acc; simpl; [done|].
    destruct (numeric ucd c); try by intros [= <-]. apply IH.
Qed.

Section SinkExits.

Variable ucd : char → numeric_type.

(** X17: the ways out of a call with rows.  When the conversion of the
    search mode raises, it is a [ValueError], the connection has been
    opened and is not closed, and nothing is written.  In every other
    case the last thing the call does is close the connection, and it
    either returns a count or leaves the table as it was. *)
Theorem save_exits rows params st :
  rows ≠ [] →
  let run := save_indicators_to_db ucd rows params st in
  (∀ e, meta_of ucd params = Raise e →
        e = ValueError ∧ run = (Raise ValueError, emit st [DbConnected]))
  ∧ (∀ meta, meta_of ucd params = Ok meta →
       last (log run.2) = Some DbClosed
       ∧ ((∃ n, run.1 = Ok (Some n)) ∨ table run.2 = table st)).
Proof.
  intros Hrows run. subst run. unfold save_indicators_to_db.
  destruct rows as [|r rows]; [done|]. split.
  - intros e He. rewrite He.
    assert (e = ValueError) as ->; [|done].
    unfold meta_of in He.
    destruct (search_mode_one ucd _) as [mode|e'] eqn:E; [done|].
    injection He as <-. by eapply search_mode_one_raises.
  - intros meta ->. cbv zeta.
    destruct (executemany _ _) as [[t c]|e].
    + cbn [fst snd emit commit log table].
      split; [|left; by eexists].
      by rewrite last_app.
    + destruct e; cbn [fst snd emit log table];
        (split; [by rewrite last_app|by right]).
Qed.

Lemma save_unbound_table rows params st t meta e :
  table st = Some t →
  meta_of ucd params = Ok meta →
  bind_all meta = Raise e →
  table (save_indicators_to_db ucd rows params st).2 = Some t.
Proof.
  intros Ht Hmeta He. unfold save_indicators_to_db.
  destruct rows as [|r rows]; [done|].
  rewrite Hmeta. cbv zeta. cbn [emit table]. rewrite Ht.
  unfold executemany. cbn [map insert_all].
  rewrite (bind_all_app_raise _ _ _ He : bind_all (record_of meta r) = _).
  by destruct e.
Qed.

(** X18: when a parameter of the task does not bind (an object that
    SQLite has no type for, an integer beyond 64 bits), nothing is
    written and the connection is closed; the call returns [None] when
    the failure is a database error and raises it otherwise. *)
Theorem save_unbindable_parameter rows params st t meta e :
  rows ≠ [] →
  table st = Some t →
  meta_of ucd params = Ok meta →
  bind_all meta = Raise e →
  let run := save_indicators_to_db ucd rows params st in
  run.1 = match e with Sqlite3Error => Ok None | _ => Raise e end
  ∧ table run.2 = Some t
  ∧ last (log run.2) = Some DbClosed.
Proof.
  intros Hrows Ht Hmeta He run. subst run. unfold save_indicators_to_db.
  destruct rows as [|r rows]; [done|].
  rewrite Hmeta. cbv zeta. cbn [emit table]. rewrite Ht.
  unfold executemany. cbn [map insert_all].
  rewrite (bind_all_app_raise _ _ _ He : bind_all (record_of meta r) = _).
  destruct e; cbn [fst snd emit log table]; rewrite Ht;
    (split; [done|split; [done|by rewrite last_app]]).
Qed.

End SinkExits.

(** ** setup_indicator_database and clear_indicator_database *)

Lemma setup_table (st : state) :
  table (setup_indicator_database st) = Some (default [] (table st)).
Proof. unfold setup_indicator_database. by destruct st as [[t|] l]. Qed.

Lemma setup_log (st : state) :
  log (setup_indicator_database st)
  = log st ++ [DbConnected; DbCommitted; DbClosed; DbInitialised].
Proof.
  unfold setup_indicator_database. destruct st as [[t|] l]; simpl;
    by rewrite <- ?app_assoc.
Qed.

(** X10: [setup_indicator_database] creates the table when the database
    has none and leaves the stored rows untouched when it has one;
    called again it changes nothing, and it closes its connection. *)
Theorem setup_keeps_rows (st : state) :
  table (setup_indicator_database st) = Some (default [] (table st))
  ∧ table (setup_indicator_database (setup_indicator_database st))
    = table (setup_indicator_database st)
  ∧ log (setup_indicator_database st)
    = log st ++ [DbConnected; DbCommitted; DbClosed; DbInitialised].
Proof.
  unfold setup_indicator_database. destruct st as [[t|] l]; simpl;
    by rewrite <- ?app_assoc.
Qed.

(** X11: [clear_indicator_database] empties the table, so that no key
    is stored any more; on a database without the table it raises
    nothing, reports the error and leaves the table missing.  Either
    way its last act is to close the connection. *)
Theorem clear_empties_table (st : state) :
  table (clear_indicator_database st) = (λ _, []) <$> table st
  ∧ (∀ t k, table (clear_indicator_database st) = Some t →
            stored_with k t = 0)
  ∧ (table st = None →
     log (clear_indicator_database st)
     = log st ++ [DbConnected; DbWriteError; DbClosed])
  ∧ last (log (clear_indicator_database st)) = Some DbClosed.
Proof.
  unfold clear_indicator_database. destruct st as [[t|] l]; simpl.
  - split; [done|]. split; [by intros ? ? [= <-]|]. split; [done|].
    by rewrite last_app.
  - split; [done|]. split; [done|]. split; [by rewrite <- app_assoc|].
    by rewrite last_app.
Qed.

(** ** The search mode *)

Section SearchMode.

Variable ucd : char → numeric_type.











End SearchMode.

(** ** main *)

Lemma crawl_without_links s maxpages sort_by rows :
  (crawl_cnki_indicators s maxpages false sort_by).1 = Ok rows →
  Forall (λ r, download_url r = []) rows.
Proof.
  unfold crawl_cnki_indicators.
  destruct (page_loop _ _ _ _ _ _ _) as [o l] eqn:E. simpl. intros ->.
  eapply Forall_impl.
  - eapply page_loop_rows; [|by rewrite E]. constructor.
  - intros r (h & _ & Hs).
    by apply scraped_download_url in Hs as [?|[? _]].
Qed.

Lemma crawl_pages_bound s maxpages g sort_by :
  pages_scraped (crawl_cnki_indicators s maxpages g sort_by).2
  ≤ Z.to_nat maxpages.
Proof.
  unfold crawl_cnki_indicators, range.
  pose proof (page_loop_iterations s g sort_by
                (seq 0 (Z.to_nat maxpages)) new_page [] []) as H.
  cbv zeta in H. rewrite length_seq in H.
  destruct (page_loop _ _ _ _ _ _ _) as [o l]. cbn [snd] in *.
  rewrite pages_scraped_app.
  change (pages_scraped []) with 0 in H.
  change (iterations []) with 0 in H.
  change (pages_scraped [BrowserClosed]) with 0. lia.
Qed.

Lemma column_download_url (bound : list sqlval) r :
  length bound = 7 →
  column 14 (bound ++ row_columns r) = SText (download_url r).
Proof.
  intros H. do 8 (destruct bound as [|? bound]; try discriminate H).
  reflexivity.
Qed.

Section MainFacts.

Variable ucd : char → numeric_type.
Variable web : gmap str pyval → site.

(** What a call of the sink adds, whatever its parameters. *)
Lemma save_adds rows params st t :
  table st = Some t →
  ∃ new,
    table (save_indicators_to_db ucd rows params st).2 = Some (t ++ new)
    ∧ (at_most_once t → at_most_once (t ++ new))
    ∧ Forall (λ rec, ∃ r, r ∈ rows
                ∧ column 14 rec = SText (download_url r)) new.
Proof.
  intros Ht.
  destruct (save_extends ucd rows params st t Ht) as (new & Hnew & Hu).
  exists new. split; [done|]. split; [done|].
  assert (Hnone : table (save_indicators_to_db ucd rows params st).2
                  = Some t → new = []).
  { rewrite Hnew. intros [= E]. apply (f_equal length) in E.
    rewrite length_app in E. destruct new; [done|simpl in E; lia]. }
  destruct (meta_of ucd params) as [meta|e] eqn:Hmeta.
  - destruct (bind_all meta) as [bound|e] eqn:Hb.
    + destruct (save_batch ucd rows params st t meta bound Ht Hmeta Hb)
        as (new' & _ & Hnew' & _ & _ & Hall).
      rewrite Hnew in Hnew'. injection Hnew' as Hnew'.
      apply app_inv_head in Hnew'. subst new'.
      eapply Forall_impl; [exact Hall|]. intros rec (r & Hr & ->).
      exists r. split; [done|]. apply column_download_url.
      rewrite (bind_all_length _ _ Hb). by eapply meta_of_length.
    + rewrite Hnone; [constructor|].
      by eapply save_unbound_table.
  - rewrite Hnone; [constructor|].
    destruct rows as [|r rows]; [done|].
    unfold save_indicators_to_db. by rewrite Hmeta.
Qed.

Lemma save_log_pages rows params st :
  pages_scraped (log (save_indicators_to_db ucd rows params st).2)
  = pages_scraped (log st).
Proof.
  unfold save_indicators_to_db. destruct rows as [|r rows]; [done|].
  destruct (meta_of ucd params) as [meta|e]; cbv zeta.
  - destruct (executemany _ _) as [[t c]|[]];
      cbn [snd emit commit log]; by rewrite !pages_scraped_app, ?Nat.add_0_r.
  - cbn [snd emit log]. by rewrite pages_scraped_app, Nat.add_0_r.
Qed.

Lemma run_task_adds index params st t :
  table st = Some t →
  ∃ new,
    table (run_task ucd web index params st) = Some (t ++ new)
    ∧ (at_most_once t → at_most_once (t ++ new))
    ∧ Forall (λ rec, column 14 rec = SText []) new.
Proof.
  intros Ht.
  assert (Hsame : ∀ st', table st' = Some t →
            ∃ new, table st' = Some (t ++ new)
              ∧ (at_most_once t → at_most_once (t ++ new))
              ∧ Forall (λ rec, column 14 rec = SText []) new).
  { intros st' H. exists []. by rewrite app_nil_r. }
  unfold run_task.
  pose proof (crawl_without_links (web (cleaned_params params)) maxpages
                (get params "sort")) as Hurls.
  fold GET_DOWNLOAD_LINKS in Hurls.
  destruct (crawl_cnki_indicators _ _ _ _) as [[rows|e] crawl_log];
    [|by apply Hsame].
  specialize (Hurls rows eq_refl).
  destruct rows as [|r rows]; [by apply Hsame|].
  match goal with
  | |- context [save_indicators_to_db ucd ?rs params ?s0] =>
      destruct (save_adds rs params s0 t Ht) as (new & Hnew & Hu & Hall);
      destruct (save_indicators_to_db ucd rs params s0) as [[res|e] st']
  end; simpl in Hnew; exists new; (split; [done|split; [done|]]);
    (eapply Forall_impl; [exact Hall|]); intros rec (r' & Hr' & ->);
    rewrite Forall_forall in Hurls; by rewrite (Hurls r' Hr').
Qed.

Lemma run_task_pages index params st :
  pages_scraped (log (run_task ucd web index params st))
  ≤ pages_scraped (log st) + 5.
Proof.
  unfold run_task.
  pose proof (crawl_pages_bound (web (cleaned_params params)) maxpages
                GET_DOWNLOAD_LINKS (get params "sort")) as Hb.
  change (Z.to_nat maxpages) with 5 in Hb.
  destruct (crawl_cnki_indicators _ _ _ _) as [[rows|e] crawl_log];
    cbn [snd] in Hb.
  - destruct rows as [|r rows].
    + cbn [emit log]. rewrite !pages_scraped_app.
      unfold pages_scraped in *. simpl. lia.
    + match goal with
      | |- context [save_indicators_to_db ucd ?rs params ?s0] =>
          pose proof (save_log_pages rs params s0) as Hs;
          destruct (save_indicators_to_db ucd rs params s0) as [[res|e] st']
      end; cbn [snd emit log] in *; rewrite ?pages_scraped_app, Hs;
        rewrite !pages_scraped_app; unfold pages_scraped in *; simpl; lia.
  - cbn [emit log]. rewrite !pages_scraped_app.
    unfold pages_scraped in *. simpl. lia.
Qed.

Lemma run_tasks_adds tasks index st t :
  table st = Some t →
  ∃ new,
    table (run_tasks ucd web index tasks st) = Some (t ++ new)
    ∧ (at_most_once t → at_most_once (t ++ new))
    ∧ Forall (λ rec, column 14 rec = SText []) new.
Proof.
  revert index st t.
  induction tasks as [|params tasks IH]; intros index st t Ht.
  - exists []. by rewrite app_nil_r.
  - destruct (run_task_adds index params st t Ht) as (new & Hnew & Hu & Ha).
    destruct (IH (S index) _ _ Hnew) as (new' & Hnew' & Hu' & Ha').
    exists (new ++ new'). simpl. rewrite app_assoc. split; [done|].
    split; [auto|]. by apply Forall_app.
Qed.

Lemma run_tasks_pages tasks index st :
  pages_scraped (log (run_tasks ucd web index tasks st))
  ≤ pages_scraped (log st) + 5 * length tasks.
Proof.
  revert index st. induction tasks as [|params tasks IH]; intros index st.
  - simpl. lia.
  - simpl run_tasks. etrans; [apply IH|].
    pose proof (run_task_pages index params st). simpl length. lia.
Qed.

Lemma main_adds tasks st :
  ∃ new,
    table (main ucd web tasks st) = Some (default [] (table st) ++ new)
    ∧ (at_most_once (default [] (table st)) →
       at_most_once (default [] (table st) ++ new))
    ∧ Forall (λ rec, column 14 rec = SText []) new.
Proof.
  unfold main. change CLEAR_DATABASE_BEFORE_CRAWL with false. cbv iota.
  pose proof (setup_table st) as Hsetup.
  destruct tasks as [tasks|].
  - destruct (run_tasks_adds tasks 0 _ _ Hsetup) as (new & ? & ? & ?).
    by exists new.
  - exists []. by rewrite app_nil_r.
Qed.

(** X21: a run of [main] never loses a stored row: the table it leaves
    is the table it found (created if missing) with rows added at the
    end, and if every key was stored at most once before, it still
    is. *)
Theorem main_keeps_stored_rows tasks st :
  ∃ new,
    table (main ucd web tasks st) = Some (default [] (table st) ++ new)
    ∧ (at_most_once (default [] (table st)) →
       at_most_once (default [] (table st) ++ new)).
Proof.
  destruct (main_adds tasks st) as (new & ? & ? & _). by exists new.
Qed.

(** X22: [main] crawls with [GET_DOWNLOAD_LINKS = False], so every row
    that a run adds to the table has the empty text as download_url. *)
Theorem main_stores_no_download_url tasks st :
  ∃ new,
    table (main ucd web tasks st) = Some (default [] (table st) ++ new)
    ∧ Forall (λ rec, column 14 rec = SText []) new.
Proof.
  destruct (main_adds tasks st) as (new & ? & _ & ?). by exists new.
Qed.

(** X23: [main] scrapes at most 5 pages for each task: the pages that
    the log of a run reports are at most five times the number of
    tasks, whatever the sites answer. *)
Theorem main_page_budget tasks st :
  pages_scraped (log (main ucd web (Some tasks) st))
  ≤ pages_scraped (log st) + 5 * length tasks.
Proof.
  unfold main. change CLEAR_DATABASE_BEFORE_CRAWL with false. cbv iota.
  cbn [emit log]. rewrite pages_scraped_app.
  pose proof (run_tasks_pages tasks 0 (setup_indicator_database st)) as H.
  rewrite setup_log, pages_scraped_app in H.
  unfold pages_scraped in *. simpl in *. lia.
Qed.

End MainFacts.

(** X24: the parameters that go into the URL are exactly those of the
    task whose value is neither [None] nor the empty text, with their
    values unchanged; cleaning them again changes nothing. *)
Theorem cleaned_params_lookup (params : gmap str pyval) :
  (∀ k v, cleaned_params params !! k = Some v
          ↔ params !! k = Some v ∧ v ≠ PNone ∧ v ≠ PStr [])
  ∧ cleaned_params (cleaned_params params) = cleaned_params params.
Proof.
  assert (Hkept : ∀ v, kept v = true ↔ v ≠ PNone ∧ v ≠ PStr []).
  { intros [| | | |[|]|]; simpl; split; try done; try by intros [? ?]. }
  split.
  - intros k v. unfold cleaned_params.
    rewrite map_lookup_filter_Some. simpl. by rewrite Hkept.
  - unfold cleaned_params. apply map_eq. intros k.
    apply option_eq. intros v.
    rewrite !map_lookup_filter_Some. tauto.
Qed.

(** ** Runs of the further properties *)

Lemma three_pages_in_order :
  (crawl_cnki_indicators three_page_site 5 false PNone).1
  = Ok [gdp_2020; gdp_2020; gdp_2020]
  ∧ ∃ srt n,
      n ≤ Z.to_nat 5
      ∧ pages_scraped (crawl_cnki_indicators three_page_site 5 false PNone).2
        = n
      ∧ [gdp_2020; gdp_2020; gdp_2020]
        = rows_of_pages three_page_site false srt 0 n.
Proof.
  split; [vm_compute; reflexivity|].
  apply (crawl_rows_in_page_order three_page_site 5 false PNone
           [gdp_2020; gdp_2020; gdp_2020]).
  vm_compute. reflexivity.
Defined.


Lemma captured_row_keeps_fields :
  validate captured_row = Some gdp_2020
  ∧ scraped true captured_row
    = Some (with_download_url gdp_2020 (Text.lit "blob:1"))
  ∧ ∀ url c,
      true = true → excel_icon captured_row = Some (Started url c) →
      download_url (with_download_url gdp_2020 (Text.lit "blob:1")) = url.
Proof.
  split; [vm_compute; reflexivity|]. split; [vm_compute; reflexivity|].
  apply (interceptor_only_sets_download_url true captured_row gdp_2020
           (with_download_url gdp_2020 (Text.lit "blob:1")));
    vm_compute; reflexivity.
Defined.

Lemma one_page_rows_well_formed :
  (crawl_cnki_indicators one_page_site 5 true PNone).1 = Ok [gdp_2020]
  ∧ Forall well_formed [gdp_2020].
Proof.
  split; [vm_compute; reflexivity|].
  apply (crawled_rows_well_formed one_page_site 5 true PNone [gdp_2020]).
  vm_compute. reflexivity.
Defined.

Lemma missing_sort_control :
  sort_button one_page_site = None
  ∧ (crawl_cnki_indicators one_page_site 5 false (PStr SIMILARITY)).1
    = (crawl_cnki_indicators one_page_site 5 false PNone).1.
Proof.
  split; [reflexivity|].
  apply (sort_preference_degrades one_page_site 5 false (PStr SIMILARITY)).
  left. reflexivity.
Defined.




Lemma plain_batch_swapped :
  (save_indicators_to_db latin1_only [gdp_2020; gdp_2021] plain_task fresh).1
  = (save_indicators_to_db latin1_only [gdp_2021; gdp_2020] plain_task
       fresh).1.
Proof.
  apply (save_order_independent latin1_only [gdp_2020; gdp_2021]
           [gdp_2021; gdp_2020] plain_task fresh [] plain_meta plain_bound);
    [reflexivity|vm_compute; reflexivity|vm_compute; reflexivity|].
  apply perm_swap.
Defined.


Lemma superscript_task_exit :
  meta_of latin1_only superscript_task = Raise ValueError
  ∧ save_indicators_to_db latin1_only [gdp_2020] superscript_task fresh
    = (Raise ValueError, emit fresh [DbConnected]).
Proof.
  split; [vm_compute; reflexivity|].
  destruct (save_exits latin1_only [gdp_2020] superscript_task fresh)
    as [H _]; [discriminate|].
  apply (H ValueError). vm_compute. reflexivity.
Defined.

Lemma object_task_returns_none :
  bind_all object_meta = Raise Sqlite3Error
  ∧ (save_indicators_to_db latin1_only [gdp_2020] object_task fresh).1
    = Ok None
  ∧ table (save_indicators_to_db latin1_only [gdp_2020] object_task fresh).2
    = Some [].
Proof.
  split; [reflexivity|].
  destruct (save_unbindable_parameter latin1_only [gdp_2020] object_task
              fresh [] object_meta Sqlite3Error) as (H1 & H2 & _);
    [discriminate|reflexivity|vm_compute; reflexivity|reflexivity|].
  split; [exact H1|exact H2].
Defined.


